(** * Blocking kernel channels (IPython/kernel/blocking/channels.py)

    A shallow embedding of the blocking ZMQ channel classes and the
    properties their specification states about them.

    Python objects are records, methods are state transformers on the
    object they are called on, and a call ends in one of three ways: it
    returns, it raises, or it blocks for ever inside a socket primitive. *)

From Stdlib Require Import ZArith List Bool Ascii String Lia.
From Stdlib Require Import PrimFloat.
From stdpp Require Import base strings pretty gmap.

Import ListNotations.
Local Open Scope string_scope.
Local Open Scope Z_scope.
Local Open Scope list_scope.

(** ** Python values and builtins *)

Module Py.

(** Numbers that reach this module: [int] (unbounded) and [float]
    (IEEE 754 binary64). *)
Inductive num :=
| Int (z : Z)
| Float (f : float).

(** [x * 1000] with the integer literal on the right: exact on [int],
    binary64 multiplication by [1000.0] on [float]. *)
Definition mul_1000 (x : num) : num :=
  match x with
  | Int z => Int (z * 1000)
  | Float f => Float (PrimFloat.mul f 1000%float)
  end.

(** [x < 0]. *)
Definition negative (x : num) : bool :=
  match x with
  | Int z => z <? 0
  | Float f => PrimFloat.ltb f 0%float
  end.

(** The values a message content mapping holds, as far as this module
    looks at them. *)
Inductive value :=
| VNone
| VBool (b : bool)
| VInt (z : Z)
| VStr (s : string).

(** [bool(n)] for an integer. *)
Definition truthy (n : Z) : bool := negb (n =? 0).

(** [s.split(sep)] for a one-character separator.  The result is never
    empty: a string without the separator gives the singleton list. *)
Fixpoint split (sep : ascii) (s : string) : list string :=
  match s with
  | EmptyString => [EmptyString]
  | String c r =>
      if Ascii.eqb c sep then EmptyString :: split sep r
      else match split sep r with
           | [] => [String c EmptyString]
           | p :: ps => String c p :: ps
           end
  end.

(** ASCII white space, as [str.strip] and [int] skip it. *)
Definition is_space (c : ascii) : bool :=
  let n := nat_of_ascii c in
  (Nat.eqb n 32 || (Nat.leb 9 n && Nat.leb n 13))%bool.

Fixpoint lstrip (s : string) : string :=
  match s with
  | EmptyString => EmptyString
  | String c r => if is_space c then lstrip r else s
  end.

Fixpoint rstrip (s : string) : string :=
  match s with
  | EmptyString => EmptyString
  | String c r =>
      match rstrip r with
      | EmptyString => if is_space c then EmptyString else String c EmptyString
      | r' => String c r'
      end
  end.

Definition strip (s : string) : string := rstrip (lstrip s).

Definition digit (c : ascii) : option Z :=
  let n := nat_of_ascii c in
  if (Nat.leb 48 n && Nat.leb n 57)%bool then Some (Z.of_nat n - 48) else None.

(** Value of a run of decimal digits read left to right. *)
Fixpoint digits (acc : Z) (s : string) : option Z :=
  match s with
  | EmptyString => Some acc
  | String c r =>
      match digit c with
      | Some d => digits (10 * acc + d) r
      | None => None
      end
  end.

Definition numeral (s : string) : option Z :=
  match s with
  | EmptyString => None
  | _ => digits 0 s
  end.

(** [int(s)] on a string, base 10: surrounding white space is dropped,
    one sign is allowed, then at least one decimal digit and nothing
    else.  [None] stands for the [ValueError] Python raises. *)
Definition int (s : string) : option Z :=
  match strip s with
  | String "+" r => numeral r
  | String "-" r => option_map Z.opp (numeral r)
  | t => numeral t
  end.

(** ["%i" % n]. *)
Definition format_i (n : Z) : string := pretty n.

End Py.

(** ** Exceptions and outcomes *)

(** The exception classes that occur.  All of them derive from
    [Exception]. *)
Inductive exn :=
| Empty
| InvalidPortNumber (message : string)
| ValueError
| KeyError (key : string)
| IndexError
| AttributeError (attr : string)
| ZMQError (errno : Z).

Inductive outcome (A : Type) :=
| Ok (a : A)
| Raise (e : exn)
| Hang.
Arguments Ok {A} a.
Arguments Raise {A} e.
Arguments Hang {A}.

(** ** The ZMQ side: contexts and sockets

    The socket library is an external collaborator.  A socket is
    modelled by what the channel code can observe of it: the multipart
    messages that are ready to be received, in arrival order, and what
    [close] does.  [calls] records, oldest first, the calls the channel
    made on the socket. *)

Inductive Context := ZmqContext (handle : nat).

Module Zmq.

Inductive role := Shell | IOPub | StdIn.

Inductive call :=
| Poll (timeout : option Py.num)
| RecvMultipart
| Close (linger : Z).

Record Socket := {
  made_for : role;
  context : Context;
  identity : string;
  endpoint : string;
  inbox : list (list string);
  close_error : option exn;
  calls : list call
}.

Definition record (c : call) (s : Socket) : Socket :=
  {| made_for := made_for s; context := context s; identity := identity s;
     endpoint := endpoint s; inbox := inbox s; close_error := close_error s;
     calls := calls s ++ [c] |}.

Definition set_inbox (q : list (list string)) (s : Socket) : Socket :=
  {| made_for := made_for s; context := context s; identity := identity s;
     endpoint := endpoint s; inbox := q; close_error := close_error s;
     calls := calls s |}.

Definition POLLIN : Z := 1.

(** A poll without a timeout, or with a negative one, returns only when
    an event is there. *)
Definition waits_for_ever (timeout : option Py.num) : bool :=
  match timeout with
  | None => true
  | Some t => Py.negative t
  end.

(** [socket.poll(timeout)]: the event mask, [0] when the wait ran out. *)
Definition poll (timeout : option Py.num) (s : Socket) : outcome Z * Socket :=
  let s' := record (Poll timeout) s in
  match inbox s with
  | _ :: _ => (Ok POLLIN, s')
  | [] => if waits_for_ever timeout then (Hang, s') else (Ok 0, s')
  end.

(** [socket.recv_multipart()]: takes the oldest ready message; with
    nothing ready the blocking receive does not return. *)
Definition recv_multipart (s : Socket) : outcome (list string) * Socket :=
  let s' := record RecvMultipart s in
  match inbox s with
  | m :: rest => (Ok m, set_inbox rest s')
  | [] => (Hang, s')
  end.

(** [socket.close(linger)]. *)
Definition close (linger : Z) (s : Socket) : outcome unit * Socket :=
  let s' := record (Close linger) s in
  match close_error s with
  | Some e => (Raise e, s')
  | None => (Ok tt, s')
  end.

(** Modelled from the spec: the socket factories of IPython.kernel.channels
    ([make_shell_socket], [make_iopub_socket], [make_stdin_socket]), one
    per channel role, each taking (context, session identity, address) and
    returning a socket bound to that address. *)
Definition make (r : role) (context : Context) (identity address : string)
  : Socket :=
  {| made_for := r; context := context; identity := identity;
     endpoint := address; inbox := []; close_error := None; calls := [] |}.

End Zmq.

Definition make_shell_socket := Zmq.make Zmq.Shell.
Definition make_iopub_socket := Zmq.make Zmq.IOPub.
Definition make_stdin_socket := Zmq.make Zmq.StdIn.

(** ** Sessions and messages *)

(** Modelled from the spec: the session object, whose class lives in
    IPython.kernel.zmq.session.  [bsession] is the identity handed to the
    socket factories, [adapt_version] the protocol version outgoing
    messages are adapted to ([None] while no kernel has asked for one). *)
Record Session := {
  bsession : string;
  adapt_version : option Z
}.

Definition set_adapt_version (v : Z) (s : Session) : Session :=
  {| bsession := bsession s; adapt_version := Some v |}.

(** Modelled from the spec: a deserialized message, a record with at
    least a type tag and a content mapping; [msg_type] and [content] are
    the parts the channels read. *)
Record Msg := {
  msg_id : string;
  msg_type : string;
  content : gmap string Py.value
}.

(** ** Channel objects *)

Record Channel := {
  daemon : bool;
  context : Context;
  session : Session;
  socket : option Zmq.Socket;
  _address : string
}.

Definition set_socket (s : option Zmq.Socket) (self : Channel) : Channel :=
  {| daemon := daemon self; context := context self; session := session self;
     socket := s; _address := _address self |}.

Definition set_session (s : Session) (self : Channel) : Channel :=
  {| daemon := daemon self; context := context self; session := s;
     socket := socket self; _address := _address self |}.

(** A method body: it runs on [self], ends in an outcome and leaves
    [self] in a new state (also when it raises). *)
Definition M (A : Type) : Type := Channel -> outcome A * Channel.

#[global] Instance M_ret : MRet M := fun A a self => (Ok a, self).

#[global] Instance M_bind : MBind M := fun A B k m self =>
  match m self with
  | (Ok a, self') => k a self'
  | (Raise e, self') => (Raise e, self')
  | (Hang, self') => (Hang, self')
  end.

Definition raise {A} (e : exn) : M A := fun self => (Raise e, self).

(** Reading and assigning attributes of [self]. *)
Definition read {A} (attr : Channel -> A) : M A := fun self => (Ok (attr self), self).
Definition write (assign : Channel -> Channel) : M unit :=
  fun self => (Ok tt, assign self).

(** [try: body / except Exception: handler].  Every class of [exn]
    derives from [Exception], so the handler sees all of them. *)
Definition try_except_Exception {A} (body : M A) (handler : exn -> M A) : M A :=
  fun self =>
    match body self with
    | (Raise e, self') => handler e self'
    | r => r
    end.

(** [self.socket.<method>(...)]: attribute lookup on [None] fails. *)
Definition on_socket {A} (method : string)
    (op : Zmq.Socket -> outcome A * Zmq.Socket) : M A :=
  fun self =>
    match socket self with
    | None => (Raise (AttributeError method), self)
    | Some s => let '(r, s') := op s in (r, set_socket (Some s') self)
    end.

(** What a caller passes as [address]: a zmq url or an (ip, port) tuple. *)
Inductive address_arg :=
| Url (url : string)
| HostPort (host : string) (port : Z).

(** ** class ZMQSocketChannel *)

Module ZMQSocketChannel.

Definition proxy_methods : list string := [].

Definition __init__ (context : Context) (session : Session)
    (address : address_arg) : outcome Channel :=
  let new (a : string) :=
    {| daemon := true; context := context; session := session;
       socket := None; _address := a |} in
  match address with
  | HostPort host port =>
      if port =? 0 then
        let message := "The port number for a channel cannot be 0." in
        Raise (InvalidPortNumber message)
      else Ok (new ("tcp://" +:+ host +:+ ":" +:+ Py.format_i port))
  | Url url => Ok (new url)
  end.

Section Methods.

(** The session's wire format is external: [feed_identities] splits the
    routing prefix off a multipart message, [deserialize] turns the rest
    into a message; either may raise. *)
Variable feed_identities : list string -> outcome (list string * list string).
Variable deserialize : list string -> outcome Msg.

Definition session_call {A} (r : outcome A) : M A := fun self => (r, self).

Definition _recv : M Msg :=
  msg ← on_socket "recv_multipart" Zmq.recv_multipart;
  '(ident, smsg) ← session_call (feed_identities msg);
  session_call (deserialize smsg).

(** [self._recv] is looked up on the object, so a subclass that overrides
    it changes what [get_msg] and [get_msgs] receive with. *)
Variable self_recv : M Msg.

Definition get_msg (block : bool) (timeout : option Py.num) : M Msg :=
  ready ← (if block then
             let timeout := match timeout with
                            | Some t => Some (Py.mul_1000 t)
                            | None => None
                            end in
             on_socket "poll" (Zmq.poll timeout)
           else on_socket "poll" (Zmq.poll (Some (Py.Int 0))));
  if Py.truthy ready then self_recv else raise Empty.

(** The [while True] loop of [get_msgs], with the number of iterations
    bounded by [fuel]; [None] when the bound is reached. *)
Fixpoint get_msgs_loop (fuel : nat) (msgs : list Msg) (self : Channel)
  : option (outcome (list Msg) * Channel) :=
  match fuel with
  | O => None
  | S fuel' =>
      match get_msg false None self with
      | (Ok m, self') => get_msgs_loop fuel' (msgs ++ [m]) self'
      | (Raise Empty, self') => Some (Ok msgs, self')
      | (Raise e, self') => Some (Raise e, self')
      | (Hang, self') => Some (Hang, self')
      end
  end.

Definition get_msgs (fuel : nat) : Channel -> option (outcome (list Msg) * Channel) :=
  get_msgs_loop fuel [].

Definition msg_ready : M bool :=
  ready ← on_socket "poll" (Zmq.poll (Some (Py.Int 0)));
  mret (Py.truthy ready).

Definition close : M unit :=
  s ← read socket;
  match s with
  | Some _ =>
      _ ← try_except_Exception (on_socket "close" (Zmq.close 0))
                               (fun _ => mret tt);
      write (set_socket None)
  | None => mret tt
  end.

Definition stop : M unit := close.

Definition is_alive : M bool :=
  s ← read socket;
  mret (match s with Some _ => true | None => false end).

Definition address : M string := read _address.

End Methods.

End ZMQSocketChannel.

(** ** class BlockingShellChannel(ZMQSocketChannel) *)

Module BlockingShellChannel.

Definition start : M unit :=
  context ← read context;
  session ← read session;
  address ← ZMQSocketChannel.address;
  write (set_socket (Some (make_stdin_socket context (bsession session) address))).

Section Methods.

(** [major_protocol_version] is a constant of IPython.kernel.channels. *)
Variable major_protocol_version : Z.
Variable feed_identities : list string -> outcome (list string * list string).
Variable deserialize : list string -> outcome Msg.

Definition _handle_kernel_info_reply (msg : Msg) : M unit :=
  match content msg !! "protocol_version" with
  | None => raise (KeyError "protocol_version")
  | Some (Py.VStr protocol_version) =>
      match Py.split "." protocol_version with
      | [] => raise IndexError
      | first :: _ =>
          match Py.int first with
          | None => raise ValueError
          | Some adapt_version =>
              if negb (adapt_version =? major_protocol_version) then
                session ← read session;
                write (set_session (set_adapt_version adapt_version session))
              else mret tt
          end
      end
  | Some _ => raise (AttributeError "split")
  end.

Definition _recv : M Msg :=
  msg ← ZMQSocketChannel._recv feed_identities deserialize;
  _ ← (if String.eqb (msg_type msg) "kernel_info_reply"
       then _handle_kernel_info_reply msg
       else mret tt);
  mret msg.

Definition get_msg : bool -> option Py.num -> M Msg :=
  ZMQSocketChannel.get_msg _recv.

Definition get_msgs : nat -> Channel -> option (outcome (list Msg) * Channel) :=
  ZMQSocketChannel.get_msgs _recv.

End Methods.

End BlockingShellChannel.

(** ** class BlockingIOPubChannel(ZMQSocketChannel) *)

Module BlockingIOPubChannel.

Definition start : M unit :=
  context ← read context;
  session ← read session;
  address ← ZMQSocketChannel.address;
  write (set_socket (Some (make_iopub_socket context (bsession session) address))).

End BlockingIOPubChannel.

(** ** class BlockingStdInChannel(ZMQSocketChannel) *)

Module BlockingStdInChannel.

Definition proxy_methods : list string := ["input"].

Definition start : M unit :=
  context ← read context;
  session ← read session;
  address ← ZMQSocketChannel.address;
  write (set_socket (Some (make_stdin_socket context (bsession session) address))).

End BlockingStdInChannel.

(** ** class BlockingHBChannel(HBChannel) *)

Module BlockingHBChannel.

Definition time_to_dead : Py.num := Py.Float 1%float.

Section Methods.

(** The state of a heartbeat channel is that of the inherited
    [HBChannel], a class of IPython.kernel.channels. *)
Variable HBChannel : Type.

Definition call_handlers (since_last_heartbeat : Py.num)
  : HBChannel -> outcome unit * HBChannel :=
  fun self => (Ok tt, self).

End Methods.

End BlockingHBChannel.

(** ** The call log is not program state *)

(** A socket with the record of calls wiped. *)
Definition wipe (s : Zmq.Socket) : Zmq.Socket :=
  {| Zmq.made_for := Zmq.made_for s; Zmq.context := Zmq.context s;
     Zmq.identity := Zmq.identity s; Zmq.endpoint := Zmq.endpoint s;
     Zmq.inbox := Zmq.inbox s; Zmq.close_error := Zmq.close_error s;
     Zmq.calls := [] |}.

(** The channel with the record of socket calls wiped: what the program
    itself can observe of a channel. *)
Definition forget_calls (self : Channel) : Channel :=
  set_socket (option_map wipe (socket self)) self.

(** A socket operation, and a method, that do not look at the record. *)
Definition blind_op {A} (op : Zmq.Socket -> outcome A * Zmq.Socket) : Prop :=
  forall s1 s2, wipe s1 = wipe s2 ->
    fst (op s1) = fst (op s2) /\ wipe (snd (op s1)) = wipe (snd (op s2)).

Definition blind {A} (m : M A) : Prop :=
  forall a b, forget_calls a = forget_calls b ->
    fst (m a) = fst (m b) /\ forget_calls (snd (m a)) = forget_calls (snd (m b)).

(** The messages ready on the channel's socket. *)
Definition ready_messages (self : Channel) : list (list string) :=
  match socket self with
  | Some s => Zmq.inbox s
  | None => []
  end.

(** The frames [f] carry the message [m]: the session finds the end of
    the routing prefix and deserializes what follows into [m]. *)
Definition carries
    (feed_identities : list string -> outcome (list string * list string))
    (deserialize : list string -> outcome Msg)
    (f : list string) (m : Msg) : Prop :=
  exists ident smsg,
    feed_identities f = Ok (ident, smsg) /\ deserialize smsg = Ok m.

(** The timeout of an immediate poll. *)
Definition zero : option Py.num := Some (Py.Int 0).

(** The socket after [get_msgs] has emptied the queue [q]: one poll and
    one receive for each message, and the poll that finds nothing. *)
Fixpoint drained (q : list (list string)) (s : Zmq.Socket) : Zmq.Socket :=
  match q with
  | [] => Zmq.record (Zmq.Poll zero) s
  | _ :: rest =>
      drained rest
        (Zmq.set_inbox rest (Zmq.record Zmq.RecvMultipart (Zmq.record (Zmq.Poll zero) s)))
  end.

(** ** A concrete session to run the methods on *)

Module Demo.

(** A small wire format: the routing prefix ends at the delimiter frame,
    then come the message id, the type and, optionally, the protocol
    version the content carries. *)
Fixpoint feed_identities (msg : list string) : outcome (list string * list string) :=
  match msg with
  | [] => Raise ValueError
  | f :: rest =>
      if String.eqb f "<IDS|MSG>" then Ok ([], rest)
      else match feed_identities rest with
           | Ok (ids, smsg) => Ok (f :: ids, smsg)
           | r => r
           end
  end.

Definition deserialize (smsg : list string) : outcome Msg :=
  match smsg with
  | [id; ty] => Ok {| msg_id := id; msg_type := ty; content := ∅ |}
  | [id; ty; version] =>
      Ok {| msg_id := id; msg_type := ty;
            content := {[ "protocol_version" := Py.VStr version ]} |}
  | _ => Raise ValueError
  end.

Definition the_context : Context := ZmqContext 0.

Definition the_session : Session := {| bsession := "client"; adapt_version := None |}.

Definition socket_with (r : Zmq.role) (q : list (list string)) : Zmq.Socket :=
  Zmq.set_inbox q (Zmq.make r the_context "client" "tcp://127.0.0.1:5555").

Definition channel_with (r : Zmq.role) (q : list (list string)) : Channel :=
  {| daemon := true; context := the_context; session := the_session;
     socket := Some (socket_with r q); _address := "tcp://127.0.0.1:5555" |}.

Definition status (id state : string) : list string :=
  ["kernel-1"; "<IDS|MSG>"; id; state].

Definition kernel_info (id version : string) : list string :=
  ["client"; "<IDS|MSG>"; id; "kernel_info_reply"; version].

End Demo.

(** Channels and messages to run the methods on. *)

Module Run.

Import Demo.

Definition recv : M Msg := ZMQSocketChannel._recv feed_identities deserialize.

Definition idle : Channel := channel_with Zmq.IOPub [].

Definition m1 : Msg := {| msg_id := "m1"; msg_type := "status"; content := ∅ |}.
Definition m2 : Msg := {| msg_id := "m2"; msg_type := "stream"; content := ∅ |}.
Definition m3 : Msg := {| msg_id := "m3"; msg_type := "status"; content := ∅ |}.

Definition queue : list (list string) :=
  [status "m1" "status"; status "m2" "stream"; status "m3" "status"].

Definition busy : Channel := channel_with Zmq.IOPub queue.

Definition reply (version : string) : Msg :=
  {| msg_id := "r1"; msg_type := "kernel_info_reply";
     content := {[ "protocol_version" := Py.VStr version ]} |}.

Definition shell (version : string) : Channel :=
  channel_with Zmq.Shell [kernel_info "r1" version].

End Run.

(** ** Message-structure validators *)

Module Validate.

(** The Python objects the validators may be handed. *)
#[warnings="-register-all"]
Inductive object :=
| None_
| Bool (b : bool)
| Int (z : Z)
| Str (s : string)
| List (items : list object)
| Tuple (items : list object)
| Dict (items : list (object * object)).

(** The four [ValueError]s the validators raise, each with the object
    its message shows. *)
Inductive invalid :=
| NotAList (input : object)
| ElementNotString (x : object)
| KeyNotString (k : object)
| ValueNotString (v : object).

(** A validator returns None or raises. *)
Inductive checked :=
| Valid
| Invalid (e : invalid).

(** [isinstance(x, string_types)]. *)
Definition is_string (x : object) : bool :=
  match x with
  | Str _ => true
  | _ => false
  end.



(** [validate_string_dict] on the items of a dict, in iteration order. *)
Fixpoint validate_string_dict (dct : list (object * object)) : checked :=
  match dct with
  | [] => Valid
  | (k, v) :: rest =>
      if negb (is_string k) then Invalid (KeyNotString k)
      else if negb (is_string v) then Invalid (ValueNotString v)
      else validate_string_dict rest
  end.

End Validate.

(** The dict item with the string key and the string value of [kv]. *)
Definition string_item (kv : string * string) : Validate.object * Validate.object :=
  (Validate.Str (fst kv), Validate.Str (snd kv)).

(** ** What receiving may change *)

(** [s'] is the socket [s] later on: the same endpoint, with some of the
    oldest ready messages taken off the queue. *)
Definition later_socket (s s' : Zmq.Socket) : Prop :=
  Zmq.made_for s = Zmq.made_for s'
  /\ Zmq.context s = Zmq.context s'
  /\ Zmq.identity s = Zmq.identity s'
  /\ Zmq.endpoint s = Zmq.endpoint s'
  /\ Zmq.close_error s = Zmq.close_error s'
  /\ exists consumed, Zmq.inbox s = consumed ++ Zmq.inbox s'.

(** [self'] differs from [self] at most in the session and in how far
    the socket's queue has been read. *)
Definition advances (self self' : Channel) : Prop :=
  daemon self = daemon self'
  /\ context self = context self'
  /\ _address self = _address self'
  /\ match socket self, socket self' with
     | Some s, Some s' => later_socket s s'
     | None, None => True
     | _, _ => False
     end.

(** The channel has only read on in its queue: the session is the same. *)
Definition reads_queue (a b : Channel) : Prop :=
  advances a b /\ session b = session a.

(** How far a call on the shell channel can move the session: the
    adapt_version afterwards is the one before or a version other than
    the major one. *)
Definition adapts (major_protocol_version : Z) (a b : Channel) : Prop :=
  advances a b
  /\ bsession (session b) = bsession (session a)
  /\ (adapt_version (session b) = adapt_version (session a)
      \/ exists v, v <> major_protocol_version
                   /\ adapt_version (session b) = Some v).

(** The session cannot turn the frames [f] into a message: finding the
    routing prefix or deserializing raises [e]. *)
Definition garbled
    (feed_identities : list string -> outcome (list string * list string))
    (deserialize : list string -> outcome Msg)
    (f : list string) (e : exn) : Prop :=
  feed_identities f = Raise e
  \/ exists ident smsg,
       feed_identities f = Ok (ident, smsg) /\ deserialize smsg = Raise e.

(** * Properties *)

(** Unfolds the method monad down to matches on states. *)
Ltac run :=
  unfold ZMQSocketChannel.close, ZMQSocketChannel.is_alive,
    ZMQSocketChannel.address, ZMQSocketChannel.msg_ready,
    ZMQSocketChannel.get_msg, ZMQSocketChannel._recv,
    ZMQSocketChannel.session_call, try_except_Exception, on_socket,
    read, write, raise, mbind, M_bind, mret, M_ret in *;
  cbn [fst snd socket set_socket set_session session context _address daemon] in *.

(** ** Construction *)

(** C3: building a channel from a (host, port) tuple whose port is 0
    raises InvalidPortNumber whatever the host is; the constructor hands
    no channel object back. *)
Theorem init_port_zero_raises (context : Context) (session : Session) (host : string) :
  (exists message,
      ZMQSocketChannel.__init__ context session (HostPort host 0)
      = Raise (InvalidPortNumber message))
  /\ (forall channel,
        ZMQSocketChannel.__init__ context session (HostPort host 0) <> Ok channel).
Proof.
  split.
  - eexists. reflexivity.
  - intros channel H. discriminate H.
Qed.

(** C10: a url string is taken as it is.  Construction from a string
    succeeds whatever port the string names, so it never raises
    InvalidPortNumber, and [address] gives the string back unchanged;
    in particular for "tcp://host:0". *)
Theorem init_url_verbatim (context : Context) (session : Session) (url : string) :
  (exists channel,
      ZMQSocketChannel.__init__ context session (Url url) = Ok channel
      /\ ZMQSocketChannel.address channel = (Ok url, channel))
  /\ (forall message,
        ZMQSocketChannel.__init__ context session (Url url)
        <> Raise (InvalidPortNumber message))
  /\ (exists channel,
        ZMQSocketChannel.__init__ context session (Url "tcp://host:0") = Ok channel
        /\ ZMQSocketChannel.address channel = (Ok "tcp://host:0", channel)).
Proof.
  repeat split.
  - eexists. split; reflexivity.
  - intros message H. discriminate H.
  - eexists. split; reflexivity.
Qed.

Example init_host_port :
  exists channel,
    ZMQSocketChannel.__init__ (ZmqContext 0) {| bsession := "id"; adapt_version := None |}
      (HostPort "127.0.0.1" 5555) = Ok channel
    /\ _address channel = "tcp://127.0.0.1:5555".
Proof. eexists. split; [vm_compute; reflexivity | reflexivity]. Qed.

(** ** start *)

(** C1 (what the code does): [BlockingShellChannel.start] binds the
    socket with the stdin factory, applied to the channel's context, the
    session identity and the address.  The socket it stores is not the
    one the shell factory makes from the same arguments. *)
Theorem shell_start_uses_stdin_factory (self : Channel) :
  let made factory :=
    set_socket (Some (factory (context self) (bsession (session self))
                              (_address self))) self in
  BlockingShellChannel.start self = (Ok tt, made make_stdin_socket)
  /\ BlockingShellChannel.start self <> (Ok tt, made make_shell_socket).
Proof.
  split; [reflexivity |].
  unfold BlockingShellChannel.start. run.
  intros H. discriminate H.
Qed.

Lemma iopub_start_uses_iopub_factory (self : Channel) :
  BlockingIOPubChannel.start self
  = (Ok tt, set_socket (Some (make_iopub_socket (context self)
                                (bsession (session self)) (_address self))) self).
Proof. reflexivity. Qed.

Lemma stdin_start_uses_stdin_factory (self : Channel) :
  BlockingStdInChannel.start self
  = (Ok tt, set_socket (Some (make_stdin_socket (context self)
                                (bsession (session self)) (_address self))) self).
Proof. reflexivity. Qed.

(** ** close and is_alive *)

Lemma close_result (self : Channel) :
  ZMQSocketChannel.close self = (Ok tt, set_socket None self).
Proof.
  run. destruct self as [d c se [s|] a]; cbn; [|reflexivity].
  unfold Zmq.close. destruct (Zmq.close_error s); reflexivity.
Qed.

(** C5: [close] returns normally on every channel, whatever the socket's
    own close raises, and leaves the socket slot empty; on a channel whose
    slot is already empty it returns normally and changes nothing; after a
    close [is_alive] answers false. *)
Theorem close_idempotent_never_raises (self : Channel) :
  let closed := set_socket None self in
  ZMQSocketChannel.close self = (Ok tt, closed)
  /\ socket closed = None
  /\ ZMQSocketChannel.close closed = (Ok tt, closed)
  /\ ZMQSocketChannel.is_alive closed = (Ok false, closed).
Proof.
  cbn zeta. repeat split.
  apply close_result.
Qed.

Example close_with_failing_socket :
  let s := {| Zmq.made_for := Zmq.IOPub; Zmq.context := ZmqContext 0;
              Zmq.identity := "id"; Zmq.endpoint := "tcp://127.0.0.1:5555";
              Zmq.inbox := []; Zmq.close_error := Some (ZMQError 88);
              Zmq.calls := [] |} in
  let self := {| daemon := true; context := ZmqContext 0;
                 session := {| bsession := "id"; adapt_version := None |};
                 socket := Some s; _address := "tcp://127.0.0.1:5555" |} in
  Zmq.close 0 s = (Raise (ZMQError 88), Zmq.record (Zmq.Close 0) s)
  /\ ZMQSocketChannel.close self = (Ok tt, set_socket None self).
Proof. split; reflexivity. Qed.

(** ** Heartbeat *)

(** C9: the blocking heartbeat channel has a dead-time threshold of 1 and
    its [call_handlers] does nothing: for every argument it returns and
    leaves the channel's state as it was. *)
Theorem hb_threshold_and_silent_handler :
  BlockingHBChannel.time_to_dead = Py.Float 1%float
  /\ forall (HBChannel : Type) (since_last_heartbeat : Py.num) (self : HBChannel),
       BlockingHBChannel.call_handlers HBChannel since_last_heartbeat self
       = (Ok tt, self).
Proof. split; reflexivity. Qed.

(** ** get_msg *)

Section Receiving.

Variable feed_identities : list string -> outcome (list string * list string).
Variable deserialize : list string -> outcome Msg.

#[local] Abbreviation base_recv := (ZMQSocketChannel._recv feed_identities deserialize).
#[local] Abbreviation carries := (carries feed_identities deserialize).

Lemma base_recv_ready (self : Channel) s f rest m :
  socket self = Some s -> Zmq.inbox s = f :: rest -> carries f m ->
  base_recv self
  = (Ok m, set_socket (Some (Zmq.set_inbox rest (Zmq.record Zmq.RecvMultipart s))) self).
Proof.
  intros Hs Hq (ident & smsg & Hf & Hd). run.
  rewrite Hs. unfold Zmq.recv_multipart. rewrite Hq. cbn.
  rewrite Hf. cbn. rewrite Hd. reflexivity.
Qed.

Lemma get_msg_not_ready (recv : M Msg) (self : Channel) s timeout :
  socket self = Some s -> Zmq.inbox s = [] ->
  ZMQSocketChannel.get_msg recv false timeout self
  = (Raise Empty, set_socket (Some (Zmq.record (Zmq.Poll zero) s)) self).
Proof.
  intros Hs Hq. run. rewrite Hs. unfold Zmq.poll. rewrite Hq. reflexivity.
Qed.

Lemma get_msg_ready (recv : M Msg) (self : Channel) s f rest timeout :
  socket self = Some s -> Zmq.inbox s = f :: rest ->
  ZMQSocketChannel.get_msg recv false timeout self
  = recv (set_socket (Some (Zmq.record (Zmq.Poll zero) s)) self).
Proof.
  intros Hs Hq. run. rewrite Hs. unfold Zmq.poll. rewrite Hq. reflexivity.
Qed.

(** C6: without blocking, [get_msg] polls the socket once, with timeout
    0.  With nothing ready it raises Empty: it returns at once, the poll
    is the only call made on the socket and the ready messages are as
    they were.  With a message ready it polls, receives the oldest
    message and returns it deserialized. *)
Theorem get_msg_nonblocking (recv : M Msg) (self : Channel) (s : Zmq.Socket)
    (timeout : option Py.num) :
  socket self = Some s ->
  (Zmq.inbox s = [] ->
     exists s',
       ZMQSocketChannel.get_msg recv false timeout self
       = (Raise Empty, set_socket (Some s') self)
       /\ Zmq.calls s' = Zmq.calls s ++ [Zmq.Poll (Some (Py.Int 0))]
       /\ Zmq.inbox s' = Zmq.inbox s)
  /\ (forall f rest m,
        Zmq.inbox s = f :: rest -> carries f m ->
        exists s',
          ZMQSocketChannel.get_msg base_recv false timeout self
          = (Ok m, set_socket (Some s') self)
          /\ Zmq.calls s'
             = Zmq.calls s ++ [Zmq.Poll (Some (Py.Int 0)); Zmq.RecvMultipart]
          /\ Zmq.inbox s' = rest).
Proof.
  intros Hs. split.
  - intros Hq. eexists. split; [exact (get_msg_not_ready recv self s timeout Hs Hq)|].
    split; reflexivity.
  - intros f rest m Hq Hm.
    rewrite (get_msg_ready _ _ s f rest) by assumption.
    rewrite (base_recv_ready _ (Zmq.record (Zmq.Poll zero) s) f rest m);
      [| reflexivity | exact Hq | exact Hm ].
    eexists. split; [reflexivity|]. cbn. split; [|reflexivity].
    rewrite <- app_assoc. reflexivity.
Qed.

Lemma get_msg_polls (recv : M Msg) (self : Channel) s timeout :
  socket self = Some s ->
  ZMQSocketChannel.get_msg recv true timeout self
  = match Zmq.poll (option_map Py.mul_1000 timeout) s with
    | (Ok ready, s') =>
        if Py.truthy ready then recv (set_socket (Some s') self)
        else (Raise Empty, set_socket (Some s') self)
    | (Raise e, s') => (Raise e, set_socket (Some s') self)
    | (Hang, s') => (Hang, set_socket (Some s') self)
    end.
Proof.
  intros Hs. run. rewrite Hs.
  destruct timeout as [t|]; cbn [option_map];
    destruct (Zmq.poll _ s) as [[ready|e|] s']; try reflexivity;
    destruct (Py.truthy ready); reflexivity.
Qed.

(** C7: a blocking [get_msg] polls the socket once, with the timeout in
    seconds multiplied by 1000 when one is given and with no timeout
    (wait for ever) when it is None.  Whatever the timeout was, a poll
    that comes back with nothing ready makes [get_msg] raise Empty, one
    that finds a message goes on to receive, and one that never comes
    back blocks the call.  In particular, with nothing ready a timeout
    of None blocks for ever and a given timeout that has run out ends in
    Empty. *)
Theorem get_msg_blocking (recv : M Msg) (self : Channel) (s : Zmq.Socket)
    (timeout : option Py.num) :
  socket self = Some s ->
  let ms := match timeout with
            | Some t => Some (Py.mul_1000 t)
            | None => None
            end in
  (forall s', Zmq.poll ms s = (Ok 0, s') ->
     ZMQSocketChannel.get_msg recv true timeout self
     = (Raise Empty, set_socket (Some s') self))
  /\ (forall ready s', Zmq.poll ms s = (Ok ready, s') -> ready <> 0 ->
        ZMQSocketChannel.get_msg recv true timeout self
        = recv (set_socket (Some s') self))
  /\ (forall s', Zmq.poll ms s = (Hang, s') ->
        ZMQSocketChannel.get_msg recv true timeout self
        = (Hang, set_socket (Some s') self))
  /\ (forall r s', Zmq.poll ms s = (r, s') ->
        Zmq.calls s' = Zmq.calls s ++ [Zmq.Poll ms])
  /\ (Zmq.inbox s = [] -> timeout = None ->
        ZMQSocketChannel.get_msg recv true timeout self
        = (Hang, set_socket (Some (Zmq.record (Zmq.Poll None) s)) self))
  /\ (forall t, Zmq.inbox s = [] -> timeout = Some t ->
        Py.negative (Py.mul_1000 t) = false ->
        ZMQSocketChannel.get_msg recv true timeout self
        = (Raise Empty,
           set_socket (Some (Zmq.record (Zmq.Poll (Some (Py.mul_1000 t))) s)) self)).
Proof.
  intros Hs ms.
  assert (Hms : ms = option_map Py.mul_1000 timeout) by (destruct timeout; reflexivity).
  pose proof (get_msg_polls recv self s timeout Hs) as Hget.
  rewrite <- Hms in Hget. clearbody ms.
  repeat split.
  - intros s' Hp. rewrite Hget, Hp. reflexivity.
  - intros ready s' Hp Hr. rewrite Hget, Hp.
    unfold Py.truthy. destruct (Z.eqb_spec ready 0); [contradiction | reflexivity].
  - intros s' Hp. rewrite Hget, Hp. reflexivity.
  - intros r s'. unfold Zmq.poll.
    destruct (Zmq.inbox s); [destruct (Zmq.waits_for_ever ms)|];
      intros H; injection H as _ <-; reflexivity.
  - intros Hq ->. subst ms. rewrite Hget. unfold Zmq.poll. rewrite Hq. reflexivity.
  - intros t Hq -> Hneg. subst ms. rewrite Hget. unfold Zmq.poll.
    rewrite Hq. cbn. rewrite Hneg. reflexivity.
Qed.

(** ** msg_ready *)

Lemma forget_calls_inv (a b : Channel) :
  forget_calls a = forget_calls b ->
  daemon a = daemon b /\ context a = context b /\ session a = session b
  /\ _address a = _address b
  /\ option_map wipe (socket a) = option_map wipe (socket b).
Proof.
  unfold forget_calls, set_socket. intros H. injection H. auto.
Qed.

Lemma forget_calls_eq (a b : Channel) :
  daemon a = daemon b -> context a = context b -> session a = session b ->
  _address a = _address b ->
  option_map wipe (socket a) = option_map wipe (socket b) ->
  forget_calls a = forget_calls b.
Proof.
  unfold forget_calls, set_socket. intros -> -> -> -> ->. reflexivity.
Qed.

Lemma blind_ret {A} (x : A) : blind (mret x).
Proof. intros a b H. split; [reflexivity | exact H]. Qed.

Lemma blind_raise {A} (e : exn) : blind (@raise A e).
Proof. intros a b H. split; [reflexivity | exact H]. Qed.

Lemma blind_session_call {A} (r : outcome A) :
  blind (ZMQSocketChannel.session_call r).
Proof. intros a b H. split; [reflexivity | exact H]. Qed.

Lemma blind_bind {A B} (m : M A) (k : A -> M B) :
  blind m -> (forall x, blind (k x)) -> blind (m ≫= k).
Proof.
  intros Hm Hk a b Hab. destruct (Hm a b Hab) as [H1 H2].
  unfold mbind, M_bind.
  destruct (m a) as [ra a'], (m b) as [rb b']; cbn in H1, H2; subst rb.
  destruct ra; [apply Hk; exact H2 | split; [reflexivity | exact H2] ..].
Qed.

Lemma blind_on_socket {A} (method : string)
    (op : Zmq.Socket -> outcome A * Zmq.Socket) :
  blind_op op -> blind (on_socket method op).
Proof.
  intros Hop a b Hab.
  destruct (forget_calls_inv a b Hab) as (Hd & Hc & Hse & Ha & Hs).
  unfold on_socket.
  destruct (socket a) as [sa|] eqn:Ea, (socket b) as [sb|] eqn:Eb;
    cbn in Hs; try discriminate Hs.
  - assert (Hw : wipe sa = wipe sb) by congruence.
    destruct (Hop sa sb Hw) as [H1 H2].
    destruct (op sa) as [ra sa'], (op sb) as [rb sb']; cbn in H1, H2 |- *.
    split; [exact H1 |].
    apply forget_calls_eq; cbn; congruence.
  - split; [reflexivity | exact Hab].
Qed.

Lemma wipe_inv (s1 s2 : Zmq.Socket) :
  wipe s1 = wipe s2 ->
  Zmq.made_for s1 = Zmq.made_for s2 /\ Zmq.context s1 = Zmq.context s2
  /\ Zmq.identity s1 = Zmq.identity s2 /\ Zmq.endpoint s1 = Zmq.endpoint s2
  /\ Zmq.inbox s1 = Zmq.inbox s2 /\ Zmq.close_error s1 = Zmq.close_error s2.
Proof. unfold wipe. intros H. injection H. auto 10. Qed.

Lemma blind_poll (timeout : option Py.num) : blind_op (Zmq.poll timeout).
Proof.
  intros s1 s2 H. destruct (wipe_inv s1 s2 H) as (Hm & Hc & Hi & He & Hq & Hx).
  unfold Zmq.poll. rewrite Hq.
  destruct (Zmq.inbox s2); [destruct (Zmq.waits_for_ever timeout)|];
    (split; [reflexivity | exact H]).
Qed.

Lemma blind_recv_multipart : blind_op Zmq.recv_multipart.
Proof.
  intros s1 s2 H. destruct (wipe_inv s1 s2 H) as (Hm & Hc & Hi & He & Hq & Hx).
  unfold Zmq.recv_multipart. rewrite Hq.
  destruct (Zmq.inbox s2) as [|f rest];
    (split; [reflexivity | cbn [snd]]); [exact H |].
  unfold wipe, Zmq.record, Zmq.set_inbox; cbn. congruence.
Qed.

Lemma blind_base_recv : blind base_recv.
Proof.
  unfold ZMQSocketChannel._recv.
  apply blind_bind; [apply blind_on_socket, blind_recv_multipart |].
  intros msg. apply blind_bind; [apply blind_session_call |].
  intros [ident smsg]. apply blind_session_call.
Qed.

Lemma blind_get_msg (recv : M Msg) (block : bool) (timeout : option Py.num) :
  blind recv -> blind (ZMQSocketChannel.get_msg recv block timeout).
Proof.
  intros Hrecv. unfold ZMQSocketChannel.get_msg.
  apply blind_bind.
  - destruct block; apply blind_on_socket, blind_poll.
  - intros ready. destruct (Py.truthy ready); [exact Hrecv | apply blind_raise].
Qed.

Lemma msg_ready_result (self : Channel) s :
  socket self = Some s ->
  ZMQSocketChannel.msg_ready self
  = (Ok (match Zmq.inbox s with [] => false | _ :: _ => true end),
     set_socket (Some (Zmq.record (Zmq.Poll zero) s)) self).
Proof.
  intros Hs. run. rewrite Hs. unfold Zmq.poll.
  destruct (Zmq.inbox s); reflexivity.
Qed.

(** C8: [msg_ready] answers true exactly when a poll of the socket with
    timeout 0 reports an event, that is, when a message is ready.  It
    makes that one poll and consumes nothing: the ready messages and
    everything else the program can see of the channel are as before,
    and a receive that follows ends the same way, in the same state, as
    it would have without the call. *)
Theorem msg_ready_iff_poll_and_pure (self : Channel) (s : Zmq.Socket) :
  socket self = Some s ->
  exists answer self',
    ZMQSocketChannel.msg_ready self = (Ok answer, self')
    /\ (answer = true <->
        exists events s', Zmq.poll (Some (Py.Int 0)) s = (Ok events, s')
                          /\ events <> 0)
    /\ (answer = true <-> Zmq.inbox s <> [])
    /\ ready_messages self' = ready_messages self
    /\ forget_calls self' = forget_calls self
    /\ forall block timeout,
         fst (ZMQSocketChannel.get_msg base_recv block timeout self')
         = fst (ZMQSocketChannel.get_msg base_recv block timeout self)
         /\ forget_calls (snd (ZMQSocketChannel.get_msg base_recv block timeout self'))
            = forget_calls (snd (ZMQSocketChannel.get_msg base_recv block timeout self)).
Proof.
  intros Hs.
  assert (Hsame : forget_calls (set_socket (Some (Zmq.record (Zmq.Poll zero) s)) self)
                  = forget_calls self).
  { apply forget_calls_eq; try reflexivity. rewrite Hs. reflexivity. }
  do 2 eexists. split; [apply msg_ready_result; exact Hs |].
  split; [| split; [| split; [| split]]].
  - unfold Zmq.poll. destruct (Zmq.inbox s) as [|f rest]; cbn; split.
    + discriminate.
    + intros (events & s' & H & Hne). injection H as <- _. contradiction.
    + intros _. exists Zmq.POLLIN. eexists. split; [reflexivity | discriminate].
    + reflexivity.
  - destruct (Zmq.inbox s); split; try discriminate; try reflexivity.
    intros H. contradiction.
  - unfold ready_messages. rewrite Hs. reflexivity.
  - exact Hsame.
  - intros block timeout.
    apply (blind_get_msg base_recv block timeout blind_base_recv). exact Hsame.
Qed.

(** ** get_msgs *)

Lemma drained_inbox (q : list (list string)) (s : Zmq.Socket) :
  Zmq.inbox s = q -> Zmq.inbox (drained q s) = [].
Proof.
  revert s. induction q as [|f rest IH]; intros s Hq; cbn [drained].
  - exact Hq.
  - apply IH. reflexivity.
Qed.

Lemma drained_calls (q : list (list string)) (s : Zmq.Socket) :
  Zmq.calls (drained q s)
  = Zmq.calls s
    ++ concat (map (fun _ => [Zmq.Poll zero; Zmq.RecvMultipart]) q)
    ++ [Zmq.Poll zero].
Proof.
  revert s. induction q as [|f rest IH]; intros s; cbn [drained].
  - reflexivity.
  - rewrite IH. cbn. rewrite <- !app_assoc. reflexivity.
Qed.

Lemma get_msgs_loop_drains (q : list (list string)) (ms : list Msg) :
  Forall2 carries q ms ->
  forall (self : Channel) s acc fuel,
    socket self = Some s -> Zmq.inbox s = q -> (length q < fuel)%nat ->
    ZMQSocketChannel.get_msgs_loop base_recv fuel acc self
    = Some (Ok (acc ++ ms), set_socket (Some (drained q s)) self).
Proof.
  induction 1 as [|f m rest ms' Hm Hrest IH]; intros self s acc fuel Hs Hq Hfuel;
    (destruct fuel as [|fuel]; [cbn in Hfuel; lia |]);
    cbn [ZMQSocketChannel.get_msgs_loop].
  - rewrite (get_msg_not_ready _ _ s None Hs Hq). rewrite app_nil_r. reflexivity.
  - rewrite (get_msg_ready _ _ s f rest None Hs Hq).
    rewrite (base_recv_ready _ (Zmq.record (Zmq.Poll zero) s) f rest m);
      [| reflexivity | exact Hq | exact Hm ].
    rewrite (IH _ (Zmq.set_inbox rest
                     (Zmq.record Zmq.RecvMultipart (Zmq.record (Zmq.Poll zero) s))));
      [| reflexivity | reflexivity | cbn in Hfuel; lia ].
    rewrite <- app_assoc. reflexivity.
Qed.

(** C4: [get_msgs] calls [get_msg(block=False)] until it raises Empty and
    returns what it gathered.  With nothing ready the result is the empty
    list.  With N messages ready the result is those N messages in
    arrival order, got by N rounds of poll and receive and one last poll;
    afterwards nothing is ready, and the next call returns the empty list
    and changes nothing the program can see.  The loop is done after N+1
    rounds. *)
Theorem get_msgs_drains_in_order (self : Channel) (s : Zmq.Socket)
    (ms : list Msg) (fuel : nat) :
  socket self = Some s ->
  Forall2 carries (Zmq.inbox s) ms ->
  (length ms < fuel)%nat ->
  exists self' s',
    ZMQSocketChannel.get_msgs base_recv fuel self = Some (Ok ms, self')
    /\ socket self' = Some s'
    /\ (Zmq.inbox s = [] -> ms = [])
    /\ length ms = length (Zmq.inbox s)
    /\ Zmq.calls s'
       = Zmq.calls s
         ++ concat (map (fun _ => [Zmq.Poll zero; Zmq.RecvMultipart]) ms)
         ++ [Zmq.Poll zero]
    /\ ready_messages self' = []
    /\ exists self'',
         ZMQSocketChannel.get_msgs base_recv fuel self' = Some (Ok [], self'')
         /\ forget_calls self'' = forget_calls self'.
Proof.
  intros Hs Hms Hfuel.
  pose proof (Forall2_length _ _ _ Hms) as Hlen.
  exists (set_socket (Some (drained (Zmq.inbox s) s)) self), (drained (Zmq.inbox s) s).
  split; [| split; [| split; [| split; [| split; [| split]]]]].
  - unfold ZMQSocketChannel.get_msgs.
    rewrite (get_msgs_loop_drains _ ms Hms self s [] fuel Hs eq_refl) by lia.
    reflexivity.
  - reflexivity.
  - intros Hq. rewrite Hq in Hms. inversion Hms. reflexivity.
  - symmetry. exact Hlen.
  - rewrite drained_calls. do 2 f_equal.
    clear -Hms. induction Hms; cbn; congruence.
  - unfold ready_messages. cbn. apply drained_inbox. reflexivity.
  - eexists. split.
    + unfold ZMQSocketChannel.get_msgs.
      rewrite (get_msgs_loop_drains [] [] ltac:(constructor)
                 (set_socket (Some (drained (Zmq.inbox s) s)) self)
                 (drained (Zmq.inbox s) s) [] fuel eq_refl);
        [reflexivity | apply drained_inbox; reflexivity | cbn; lia].
    + apply forget_calls_eq; reflexivity.
Qed.

End Receiving.

(** X13: The loop of [get_msgs] always ends: one round more than there are
    ready messages is enough, whatever the session makes of the frames
    and also on a channel without socket. *)
Lemma get_msgs_loop_terminates
    (feed_identities : list string -> outcome (list string * list string))
    (deserialize : list string -> outcome Msg) (fuel : nat) :
  forall (self : Channel) (acc : list Msg),
    (length (ready_messages self) < fuel)%nat ->
    exists r,
      ZMQSocketChannel.get_msgs_loop
        (ZMQSocketChannel._recv feed_identities deserialize) fuel acc self
      = Some r.
Proof.
  induction fuel as [|fuel IH]; intros self acc Hfuel; [lia |].
  cbn [ZMQSocketChannel.get_msgs_loop].
  unfold ready_messages in Hfuel.
  destruct (socket self) as [s|] eqn:Hs.
  - destruct (Zmq.inbox s) as [|f rest] eqn:Hq.
    + rewrite (get_msg_not_ready _ self s None Hs Hq). eexists. reflexivity.
    + rewrite (get_msg_ready _ self s f rest None Hs Hq).
      run. unfold Zmq.recv_multipart. cbn. rewrite Hq.
      destruct (feed_identities f) as [[ident smsg]|e|]; cbn.
      * destruct (deserialize smsg) as [m|e|].
        -- apply IH. unfold ready_messages. cbn. cbn in Hfuel. lia.
        -- destruct e; eexists; reflexivity.
        -- eexists. reflexivity.
      * destruct e; eexists; reflexivity.
      * eexists. reflexivity.
  - run. rewrite Hs. eexists. reflexivity.
Qed.

(** ** Protocol adaptation on the shell channel *)

Lemma digit_char (c : ascii) (d : Z) :
  Py.digit c = Some d ->
  Py.is_space c = false /\ Ascii.eqb c "." = false
  /\ (forall r, match String c r with
                | String "+" r' => Py.numeral r'
                | String "-" r' => option_map Z.opp (Py.numeral r')
                | t => Py.numeral t
                end = Py.numeral (String c r)).
Proof.
  destruct c as [[] [] [] [] [] [] [] []]; intros H;
    try discriminate H; repeat split.
Qed.

Lemma digits_first (acc : Z) (c : ascii) (r : string) (v : Z) :
  Py.digits acc (String c r) = Some v ->
  exists d, Py.digit c = Some d /\ Py.digits (10 * acc + d) r = Some v.
Proof.
  cbn [Py.digits]. destruct (Py.digit c) as [d|]; [|discriminate].
  intros H. exists d. split; [reflexivity | exact H].
Qed.

Lemma split_digits (ds tail : string) (acc v : Z) :
  Py.digits acc ds = Some v ->
  Py.split "." (ds +:+ String "." tail) = ds :: Py.split "." tail.
Proof.
  revert acc. induction ds as [|c r IH]; intros acc H.
  - reflexivity.
  - destruct (digits_first acc c r v H) as (d & Hd & Hr).
    destruct (digit_char c d Hd) as (_ & Hdot & _).
    change (String c r +:+ String "." tail)
      with (String c (r +:+ String "." tail)).
    cbn [Py.split]. rewrite Hdot, (IH _ Hr). reflexivity.
Qed.

Lemma rstrip_digits (ds : string) (acc v : Z) :
  Py.digits acc ds = Some v -> Py.rstrip ds = ds.
Proof.
  revert acc. induction ds as [|c r IH]; intros acc H.
  - reflexivity.
  - destruct (digits_first acc c r v H) as (d & Hd & Hr).
    destruct (digit_char c d Hd) as (Hsp & _ & _).
    cbn [Py.rstrip]. rewrite (IH _ Hr), Hsp.
    destruct r; reflexivity.
Qed.

Lemma int_numeral (ds : string) (v : Z) :
  Py.numeral ds = Some v -> Py.int ds = Some v.
Proof.
  intros H. destruct ds as [|c r]; [discriminate H |].
  cbn [Py.numeral] in H.
  destruct (digits_first 0 c r v H) as (d & Hd & Hr).
  destruct (digit_char c d Hd) as (Hsp & _ & Hsign).
  unfold Py.int, Py.strip. cbn [Py.lstrip]. rewrite Hsp.
  rewrite (rstrip_digits _ 0 v H), Hsign. exact H.
Qed.

Section Adaptation.

Variable major_protocol_version : Z.
Variable feed_identities : list string -> outcome (list string * list string).
Variable deserialize : list string -> outcome Msg.

#[local] Abbreviation shell_recv :=
  (BlockingShellChannel._recv major_protocol_version feed_identities deserialize).

Lemma handle_kernel_info_reply_result (self : Channel) (m : Msg)
    (version ds tail : string) (v : Z) :
  content m !! "protocol_version" = Some (Py.VStr version) ->
  version = ds +:+ String "." tail ->
  Py.numeral ds = Some v ->
  BlockingShellChannel._handle_kernel_info_reply major_protocol_version m self
  = (Ok tt,
     if v =? major_protocol_version then self
     else set_session (set_adapt_version v (session self)) self).
Proof.
  intros Hc -> Hv.
  unfold BlockingShellChannel._handle_kernel_info_reply. rewrite Hc.
  assert (Hd : Py.digits 0 ds = Some v) by (destruct ds; [discriminate Hv | exact Hv]).
  rewrite (split_digits ds tail 0 v Hd), (int_numeral ds v Hv).
  destruct (v =? major_protocol_version); reflexivity.
Qed.

(** C2: when the shell channel receives a message of type
    "kernel_info_reply" whose content's protocol_version starts with the
    decimal integer v followed by a dot, the message is returned to the
    caller; the session's adapt_version is v afterwards if v differs from
    the major protocol version, and is what it was before if v equals
    it. *)
Theorem kernel_info_reply_adapts (self : Channel) (s : Zmq.Socket)
    (f : list string) (rest : list (list string)) (m : Msg)
    (version ds tail : string) (v : Z) :
  socket self = Some s ->
  Zmq.inbox s = f :: rest ->
  carries feed_identities deserialize f m ->
  msg_type m = "kernel_info_reply" ->
  content m !! "protocol_version" = Some (Py.VStr version) ->
  version = ds +:+ String "." tail ->
  Py.numeral ds = Some v ->
  exists self',
    shell_recv self = (Ok m, self')
    /\ BlockingShellChannel.get_msg major_protocol_version feed_identities
         deserialize false None self
       = (Ok m, set_socket
                  (Some (Zmq.set_inbox rest
                           (Zmq.record Zmq.RecvMultipart
                              (Zmq.record (Zmq.Poll zero) s)))) self')
    /\ (v <> major_protocol_version ->
          adapt_version (session self') = Some v)
    /\ (v = major_protocol_version ->
          adapt_version (session self') = adapt_version (session self)
          /\ session self' = session self).
Proof.
  intros Hs Hq Hm Hty Hc Hver Hv.
  pose proof (handle_kernel_info_reply_result) as Hh.
  specialize (fun self => Hh self m version ds tail v Hc Hver Hv).
  assert (Hrecv : forall self0 s0, socket self0 = Some s0 -> Zmq.inbox s0 = f :: rest ->
            shell_recv self0
            = (Ok m,
               let self1 := set_socket (Some (Zmq.set_inbox rest
                              (Zmq.record Zmq.RecvMultipart s0))) self0 in
               if v =? major_protocol_version then self1
               else set_session (set_adapt_version v (session self1)) self1)).
  { intros self0 s0 Hs0 Hq0. unfold BlockingShellChannel._recv.
    unfold mbind at 1 2. unfold M_bind.
    rewrite (base_recv_ready feed_identities deserialize self0 s0 f rest m Hs0 Hq0 Hm).
    rewrite Hty, String.eqb_refl. cbn iota. rewrite Hh.
    cbn zeta. destruct (v =? major_protocol_version); reflexivity. }
  eexists. split; [apply (Hrecv self s Hs Hq) |].
  split; [| split].
  - unfold BlockingShellChannel.get_msg.
    rewrite (get_msg_ready _ self s f rest None Hs Hq).
    rewrite (Hrecv (set_socket (Some (Zmq.record (Zmq.Poll zero) s)) self)
               (Zmq.record (Zmq.Poll zero) s) eq_refl Hq).
    cbn zeta. destruct (v =? major_protocol_version); reflexivity.
  - intros Hne. cbn zeta.
    destruct (Z.eqb_spec v major_protocol_version); [contradiction | reflexivity].
  - intros ->. cbn zeta. rewrite Z.eqb_refl. split; reflexivity.
Qed.

End Adaptation.

(** ** Decimal numerals *)

(** [Py.numeral] reads back what decimal printing writes, so the numerals
    it accepts are the usual ones (leading zeros allowed). *)

Lemma append_assoc (p q r : string) : (p +:+ q) +:+ r = p +:+ (q +:+ r).
Proof.
  induction p as [|c p IH]; [reflexivity |].
  change (String c ((p +:+ q) +:+ r) = String c (p +:+ (q +:+ r))).
  rewrite IH. reflexivity.
Qed.

Lemma append_empty (p : string) : p +:+ EmptyString = p.
Proof.
  induction p as [|c p IH]; [reflexivity |].
  change (String c (p +:+ EmptyString) = String c p).
  rewrite IH. reflexivity.
Qed.

Lemma digits_app (p q : string) (acc : Z) :
  Py.digits acc (p +:+ q)
  = match Py.digits acc p with
    | Some a => Py.digits a q
    | None => None
    end.
Proof.
  revert acc. induction p as [|c r IH]; intros acc.
  - reflexivity.
  - change (String c r +:+ q) with (String c (r +:+ q)). cbn [Py.digits].
    destruct (Py.digit c); [apply IH | reflexivity].
Qed.

Lemma digit_pretty_char (d : N) :
  (d < 10)%N -> Py.digit (pretty_N_char d) = Some (Z.of_N d).
Proof.
  intros H.
  assert (d = 0 \/ d = 1 \/ d = 2 \/ d = 3 \/ d = 4 \/ d = 5 \/ d = 6
          \/ d = 7 \/ d = 8 \/ d = 9)%N as Hd by lia.
  repeat (destruct Hd as [-> | Hd]; [reflexivity |]). subst d. reflexivity.
Qed.

Lemma pretty_go_digits (x : N) :
  forall s, exists p,
    pretty_N_go x s = p +:+ s
    /\ (forall acc, exists k : nat,
          Py.digits acc p = Some (acc * 10 ^ Z.of_nat k + Z.of_N x))
    /\ ((0 < x)%N -> p <> EmptyString).
Proof.
  induction (N.lt_wf_0 x) as [x _ IH]. intros s.
  destruct (N.eq_dec x 0%N) as [-> | Hx].
  - exists EmptyString. split; [reflexivity |]. split; [| lia].
    intros acc. exists 0%nat. cbn [Py.digits]. f_equal. cbn. lia.
  - assert (0 < x)%N as Hpos by lia.
    rewrite (pretty_N_go_step x s Hpos).
    destruct (IH (x `div` 10)%N (N.div_lt x 10%N Hpos eq_refl)
                (String (pretty_N_char (x `mod` 10)) s)) as (p & Hp & Hval & _).
    exists (p +:+ String (pretty_N_char (x `mod` 10)) EmptyString).
    split; [| split].
    + rewrite Hp, append_assoc. reflexivity.
    + intros acc. destruct (Hval acc) as (k & Hk).
      exists (S k). rewrite digits_app, Hk. cbn [Py.digits].
      rewrite digit_pretty_char by (apply N.mod_lt; lia).
      f_equal. rewrite Nat2Z.inj_succ, Z.pow_succ_r by lia.
      rewrite (N.div_mod x 10) at 3 by lia.
      rewrite N2Z.inj_add, N2Z.inj_mul. change (Z.of_N 10) with 10. lia.
    + intros _. destruct p; discriminate.
Qed.

Lemma numeral_pretty (n : Z) : 0 <= n -> Py.numeral (pretty n) = Some n.
Proof.
  intros Hn. destruct n as [|q|q]; [reflexivity | | lia].
  change (pretty (Z.pos q)) with (pretty_N_go (N.pos q) EmptyString).
  destruct (pretty_go_digits (N.pos q) EmptyString) as (p & Hp & Hval & Hne).
  rewrite Hp, append_empty.
  destruct (Hval 0) as (k & Hk).
  unfold Py.numeral. destruct p as [|c r]; [exfalso; apply Hne; [lia | reflexivity] |].
  rewrite Hk. f_equal.
Qed.

Example numeral_examples :
  Py.numeral "4" = Some 4 /\ Py.numeral "05" = Some 5 /\ Py.numeral "" = None
  /\ Py.numeral "4a" = None
  /\ Py.int " 42 " = Some 42 /\ Py.int "-3" = Some (-3) /\ Py.int "+7" = Some 7
  /\ Py.int "- 3" = None /\ Py.int "" = None /\ Py.int "4.1" = None
  /\ Py.split "." "4.1" = ["4"; "1"] /\ Py.split "." "5" = ["5"]
  /\ Py.split "." "" = [""] /\ Py.split "." "1..2" = ["1"; ""; "2"].
Proof. repeat split; reflexivity. Qed.

(** ** The shell channel on concrete queues *)

Example shell_adapts_to_4 :
  let '(r, self') :=
    BlockingShellChannel.get_msg 5 Demo.feed_identities Demo.deserialize
      false None (Run.shell "4.1") in
  r = Ok (Run.reply "4.1")
  /\ adapt_version (session self') = Some 4
  /\ ready_messages self' = [].
Proof. vm_compute. repeat split. Qed.

Example shell_keeps_5 :
  let '(r, self') :=
    BlockingShellChannel.get_msg 5 Demo.feed_identities Demo.deserialize
      false None (Run.shell "5.0") in
  r = Ok (Run.reply "5.0")
  /\ adapt_version (session self') = None.
Proof. vm_compute. repeat split. Qed.

Example shell_drains :
  let q := [Demo.status "m1" "status"; Demo.kernel_info "r1" "4.0";
            Demo.status "m3" "status"] in
  exists self',
    BlockingShellChannel.get_msgs 5 Demo.feed_identities Demo.deserialize 4
      (Demo.channel_with Zmq.Shell q)
    = Some (Ok [Run.m1; Run.reply "4.0"; Run.m3], self')
    /\ adapt_version (session self') = Some 4
    /\ ready_messages self' = [].
Proof. eexists. split; [vm_compute; reflexivity | split; reflexivity]. Qed.

(** * The properties on concrete channels *)

Lemma carries_status (id state : string) :
  carries Demo.feed_identities Demo.deserialize (Demo.status id state)
    {| msg_id := id; msg_type := state; content := ∅ |}.
Proof. do 2 eexists. split; reflexivity. Qed.

Lemma get_msg_nonblocking_witness :
  socket Run.idle = Some (Demo.socket_with Zmq.IOPub [])
  /\ socket Run.busy = Some (Demo.socket_with Zmq.IOPub Run.queue)
  /\ (exists s',
        ZMQSocketChannel.get_msg Run.recv false None Run.idle
        = (Raise Empty, set_socket (Some s') Run.idle)
        /\ Zmq.calls s' = [Zmq.Poll (Some (Py.Int 0))]
        /\ Zmq.inbox s' = [])
  /\ (exists s',
        ZMQSocketChannel.get_msg Run.recv false None Run.busy
        = (Ok Run.m1, set_socket (Some s') Run.busy)
        /\ Zmq.calls s' = [Zmq.Poll (Some (Py.Int 0)); Zmq.RecvMultipart]
        /\ Zmq.inbox s' = [Demo.status "m2" "stream"; Demo.status "m3" "status"]).
Proof.
  split; [reflexivity |]. split; [reflexivity |]. split.
  - apply (proj1 (get_msg_nonblocking Demo.feed_identities Demo.deserialize
                    Run.recv Run.idle _ None eq_refl)).
    reflexivity.
  - apply (proj2 (get_msg_nonblocking Demo.feed_identities Demo.deserialize
                    Run.recv Run.busy _ None eq_refl)
             (Demo.status "m1" "status") _ Run.m1).
    + reflexivity.
    + do 2 eexists. split; reflexivity.
Defined.

Lemma get_msg_blocking_witness :
  socket Run.idle = Some (Demo.socket_with Zmq.IOPub [])
  /\ ZMQSocketChannel.get_msg Run.recv true (Some (Py.Float 0.5%float)) Run.idle
     = (Raise Empty,
        set_socket (Some (Zmq.record (Zmq.Poll (Some (Py.Float 500%float)))
                            (Demo.socket_with Zmq.IOPub []))) Run.idle)
  /\ ZMQSocketChannel.get_msg Run.recv true (Some (Py.Int 2)) Run.idle
     = (Raise Empty,
        set_socket (Some (Zmq.record (Zmq.Poll (Some (Py.Int 2000)))
                            (Demo.socket_with Zmq.IOPub []))) Run.idle)
  /\ ZMQSocketChannel.get_msg Run.recv true None Run.idle
     = (Hang,
        set_socket (Some (Zmq.record (Zmq.Poll None)
                            (Demo.socket_with Zmq.IOPub []))) Run.idle).
Proof.
  split; [reflexivity |]. split; [| split].
  - destruct (get_msg_blocking Run.recv Run.idle _ (Some (Py.Float 0.5%float)) eq_refl)
      as (_ & _ & _ & _ & _ & H).
    apply (H (Py.Float 0.5%float)); reflexivity.
  - destruct (get_msg_blocking Run.recv Run.idle _ (Some (Py.Int 2)) eq_refl)
      as (_ & _ & _ & _ & _ & H).
    apply (H (Py.Int 2)); reflexivity.
  - destruct (get_msg_blocking Run.recv Run.idle _ None eq_refl)
      as (_ & _ & _ & _ & H & _).
    apply H; reflexivity.
Defined.

Lemma msg_ready_iff_poll_and_pure_witness :
  socket Run.busy = Some (Demo.socket_with Zmq.IOPub Run.queue)
  /\ exists self',
       ZMQSocketChannel.msg_ready Run.busy = (Ok true, self')
       /\ ready_messages self' = Run.queue
       /\ fst (ZMQSocketChannel.get_msg Run.recv false None self') = Ok Run.m1.
Proof.
  split; [reflexivity |].
  destruct (msg_ready_iff_poll_and_pure Demo.feed_identities Demo.deserialize
              Run.busy _ eq_refl)
    as (answer & self' & Hrun & _ & Hiff & Hq & _ & Hnext).
  exists self'. split; [| split].
  - rewrite Hrun. f_equal. f_equal. apply Hiff. discriminate.
  - exact Hq.
  - exact (proj1 (Hnext false None)).
Defined.

Lemma get_msgs_drains_in_order_witness :
  socket Run.busy = Some (Demo.socket_with Zmq.IOPub Run.queue)
  /\ exists self',
       ZMQSocketChannel.get_msgs Run.recv 4 Run.busy
       = Some (Ok [Run.m1; Run.m2; Run.m3], self')
       /\ ready_messages self' = []
       /\ exists self'',
            ZMQSocketChannel.get_msgs Run.recv 4 self' = Some (Ok [], self'').
Proof.
  split; [reflexivity |].
  destruct (get_msgs_drains_in_order Demo.feed_identities Demo.deserialize
              Run.busy _ [Run.m1; Run.m2; Run.m3] 4 eq_refl)
    as (self' & s' & Hrun & _ & _ & _ & _ & Hq & self'' & Hnext & _).
  - repeat constructor; apply carries_status.
  - cbn. lia.
  - exists self'. split; [exact Hrun |]. split; [exact Hq |].
    exists self''. exact Hnext.
Defined.

Lemma kernel_info_reply_adapts_witness :
  socket (Run.shell "4.1")
  = Some (Demo.socket_with Zmq.Shell [Demo.kernel_info "r1" "4.1"])
  /\ (exists self',
        BlockingShellChannel._recv 5 Demo.feed_identities Demo.deserialize
          (Run.shell "4.1")
        = (Ok (Run.reply "4.1"), self')
        /\ adapt_version (session self') = Some 4)
  /\ (exists self',
        BlockingShellChannel._recv 5 Demo.feed_identities Demo.deserialize
          (Run.shell "5.0")
        = (Ok (Run.reply "5.0"), self')
        /\ adapt_version (session self') = None).
Proof.
  split; [reflexivity |]. split.
  - destruct (kernel_info_reply_adapts 5 Demo.feed_identities Demo.deserialize
                (Run.shell "4.1") _ (Demo.kernel_info "r1" "4.1") [] (Run.reply "4.1")
                "4.1" "4" "1" 4 eq_refl eq_refl)
      as (self' & Hrun & _ & Hset & _); try reflexivity.
    + do 2 eexists. split; reflexivity.
    + exists self'. split; [exact Hrun | apply Hset; lia].
  - destruct (kernel_info_reply_adapts 5 Demo.feed_identities Demo.deserialize
                (Run.shell "5.0") _ (Demo.kernel_info "r1" "5.0") [] (Run.reply "5.0")
                "5.0" "5" "0" 5 eq_refl eq_refl)
      as (self' & Hrun & _ & _ & Hkeep); try reflexivity.
    + do 2 eexists. split; reflexivity.
    + exists self'. split; [exact Hrun | apply (Hkeep eq_refl)].
Defined.

(** * Further properties of the module *)

(** ** The validators *)






(** X3: [validate_string_dict] passes exactly the dicts all of whose keys and
    values are strings, the empty dict among them. *)
Theorem validate_string_dict_passes_iff (dct : list (Validate.object * Validate.object)) :
  Validate.validate_string_dict dct = Validate.Valid
  <-> exists kvs : list (string * string), dct = map string_item kvs.
Proof.
  split.
  - induction dct as [|[k v] rest IH]; intros H.
    + exists []. reflexivity.
    + cbn [Validate.validate_string_dict] in H.
      destruct k; cbn in H; try discriminate H.
      destruct v; cbn in H; try discriminate H.
      destruct (IH H) as (kvs & ->). exists ((s, s0) :: kvs). reflexivity.
  - intros (kvs & ->). induction kvs as [|[k v] kvs IH]; [reflexivity | exact IH].
Qed.


(** ** Construction from a host and a port *)

Lemma int_minus_numeral (p : string) (v : Z) :
  Py.numeral p = Some v -> Py.int (String "-" p) = Some (- v).
Proof.
  intros Hp. destruct p as [|c r]; [discriminate Hp |].
  assert (Hr : Py.rstrip (String c r) = String c r)
    by (apply (rstrip_digits _ 0 v); exact Hp).
  unfold Py.int, Py.strip.
  change (Py.lstrip (String "-" (String c r))) with (String "-" (String c r)).
  change (Py.rstrip (String "-" (String c r)))
    with (match Py.rstrip (String c r) with
          | EmptyString => String "-" EmptyString
          | r' => String "-" r'
          end).
  rewrite Hr. cbn iota. rewrite Hp. reflexivity.
Qed.

Lemma int_pretty (n : Z) : Py.int (pretty n) = Some n.
Proof.
  destruct n as [|q|q].
  - reflexivity.
  - apply int_numeral, numeral_pretty. lia.
  - change (pretty (Z.neg q)) with (String "-" (pretty (Z.pos q))).
    apply (int_minus_numeral _ (Z.pos q)), numeral_pretty. lia.
Qed.

(** X5: For every port other than 0, construction from (host, port) gives a
    channel without socket that keeps the context and session it was
    given; its [address] is "tcp://", the host, a colon and a numeral
    that [int] reads back as the port. *)
Theorem init_host_port_round_trip (context0 : Context) (session0 : Session)
    (host : string) (port : Z) :
  port <> 0 ->
  exists channel text,
    ZMQSocketChannel.__init__ context0 session0 (HostPort host port) = Ok channel
    /\ ZMQSocketChannel.address channel
       = (Ok ("tcp://" +:+ host +:+ ":" +:+ text), channel)
    /\ Py.int text = Some port
    /\ ZMQSocketChannel.is_alive channel = (Ok false, channel)
    /\ context channel = context0
    /\ session channel = session0.
Proof.
  intros Hport. unfold ZMQSocketChannel.__init__.
  destruct (Z.eqb_spec port 0) as [H0 | _]; [contradiction |].
  eexists. exists (Py.format_i port).
  split; [reflexivity |]. split; [reflexivity |].
  split; [apply int_pretty |]. repeat split.
Qed.

Lemma init_host_port_round_trip_witness :
  5555 <> 0
  /\ exists channel,
       ZMQSocketChannel.__init__ Demo.the_context Demo.the_session
         (HostPort "127.0.0.1" 5555) = Ok channel
       /\ fst (ZMQSocketChannel.address channel) = Ok "tcp://127.0.0.1:5555".
Proof.
  split; [lia |].
  destruct (init_host_port_round_trip Demo.the_context Demo.the_session
              "127.0.0.1" 5555 ltac:(lia))
    as (channel & text & Hinit & Haddr & _).
  exists channel. split; [exact Hinit |].
  rewrite Haddr. vm_compute in Hinit. injection Hinit as <-.
  vm_compute in Haddr. injection Haddr as <-. reflexivity.
Defined.

(** ** Life cycle *)

(** X6: [start] of the iopub and of the stdin channel makes the channel
    alive on a socket of its own role, bound to the channel's address
    with the channel's context and the session identity, and leaves
    [address] as it was; a [close] after it gives the channel back
    without socket, otherwise exactly as it was before the start. *)
Theorem start_then_close (self : Channel) :
  let bound (r : Zmq.role) (started : Channel) :=
    ZMQSocketChannel.is_alive started = (Ok true, started)
    /\ fst (ZMQSocketChannel.address started) = fst (ZMQSocketChannel.address self)
    /\ (exists s, socket started = Some s
                  /\ Zmq.made_for s = r
                  /\ Zmq.endpoint s = _address self
                  /\ Zmq.identity s = bsession (session self)
                  /\ Zmq.context s = context self)
    /\ ZMQSocketChannel.close started = (Ok tt, set_socket None self)
    /\ ZMQSocketChannel.is_alive (set_socket None self)
       = (Ok false, set_socket None self) in
  (exists started, BlockingIOPubChannel.start self = (Ok tt, started)
                   /\ bound Zmq.IOPub started)
  /\ (exists started, BlockingStdInChannel.start self = (Ok tt, started)
                      /\ bound Zmq.StdIn started).
Proof.
  cbn zeta. split; eexists; (split; [reflexivity |]);
    (split; [reflexivity |]); (split; [reflexivity |]);
    (split; [eexists; repeat split |]);
    (split; [rewrite close_result; reflexivity | reflexivity]).
Qed.

(** ** Receiving without a socket *)

(** X7: On a channel whose socket slot is empty (never started, or closed)
    [get_msg], [msg_ready] and [get_msgs] raise AttributeError for the
    missing [poll]; none of them raises Empty or returns an empty list,
    and the channel is left as it was. *)
Theorem no_socket_rejects_receive (recv : M Msg) (self : Channel) :
  socket self = None ->
  (forall block timeout,
     ZMQSocketChannel.get_msg recv block timeout self
     = (Raise (AttributeError "poll"), self))
  /\ ZMQSocketChannel.msg_ready self = (Raise (AttributeError "poll"), self)
  /\ forall fuel,
       ZMQSocketChannel.get_msgs recv (S fuel) self
       = Some (Raise (AttributeError "poll"), self).
Proof.
  intros Hs.
  assert (Hget : forall block timeout,
             ZMQSocketChannel.get_msg recv block timeout self
             = (Raise (AttributeError "poll"), self)).
  { intros [] timeout; run; rewrite Hs; reflexivity. }
  split; [exact Hget |]. split.
  - run. rewrite Hs. reflexivity.
  - intros fuel. unfold ZMQSocketChannel.get_msgs.
    cbn [ZMQSocketChannel.get_msgs_loop]. rewrite Hget. reflexivity.
Qed.

Lemma no_socket_rejects_receive_witness :
  let closed := snd (ZMQSocketChannel.close Run.busy) in
  socket closed = None
  /\ ZMQSocketChannel.get_msg Run.recv false None closed
     = (Raise (AttributeError "poll"), closed)
  /\ ZMQSocketChannel.get_msgs Run.recv 4 closed
     = Some (Raise (AttributeError "poll"), closed).
Proof.
  cbn zeta. split; [reflexivity |].
  destruct (no_socket_rejects_receive Run.recv
              (snd (ZMQSocketChannel.close Run.busy)) eq_refl) as (Hget & _ & Hall).
  split; [apply Hget | apply (Hall 3%nat)].
Defined.

(** ** Blocking and not blocking *)

Section MoreReceiving.

Variable feed_identities : list string -> outcome (list string * list string).
Variable deserialize : list string -> outcome Msg.

#[local] Abbreviation base_recv := (ZMQSocketChannel._recv feed_identities deserialize).
#[local] Abbreviation carries := (carries feed_identities deserialize).
#[local] Abbreviation garbled := (garbled feed_identities deserialize).

(** X8: A blocking [get_msg] that finds a message ready returns it at once,
    for every timeout, also None or a negative one: it makes one poll and
    one receive and takes exactly the oldest message off the queue. *)
Theorem get_msg_blocking_ready (self : Channel) (s : Zmq.Socket)
    (f : list string) (rest : list (list string)) (m : Msg)
    (timeout : option Py.num) :
  socket self = Some s -> Zmq.inbox s = f :: rest -> carries f m ->
  exists s',
    ZMQSocketChannel.get_msg base_recv true timeout self
    = (Ok m, set_socket (Some s') self)
    /\ Zmq.inbox s' = rest
    /\ Zmq.calls s'
       = Zmq.calls s ++ [Zmq.Poll (option_map Py.mul_1000 timeout); Zmq.RecvMultipart].
Proof.
  intros Hs Hq Hm.
  rewrite (get_msg_polls base_recv self s timeout Hs).
  unfold Zmq.poll. rewrite Hq. cbn iota. cbn [Py.truthy Zmq.POLLIN].
  change (Py.truthy 1) with true. cbn iota.
  rewrite (base_recv_ready feed_identities deserialize _
             (Zmq.record (Zmq.Poll (option_map Py.mul_1000 timeout)) s) f rest m);
    [| reflexivity | exact Hq | exact Hm].
  eexists. split; [reflexivity |]. split; [reflexivity |].
  cbn. rewrite <- app_assoc. reflexivity.
Qed.

(** Blocking with a timeout of 0 is the same call as not blocking, and
    a call that does not block pays no attention to its timeout. *)
Theorem get_msg_zero_timeout (recv : M Msg) (timeout : option Py.num)
    (self : Channel) :
  ZMQSocketChannel.get_msg recv true (Some (Py.Int 0)) self
  = ZMQSocketChannel.get_msg recv false timeout self.
Proof. reflexivity. Qed.

(** X9: [msg_ready] tells what a [get_msg] that does not block will do next:
    after the answer False it raises Empty, after the answer True it goes
    on to receive, and then returns the oldest message when the session
    can deserialize it. *)
Theorem msg_ready_predicts_get_msg (recv : M Msg) (self : Channel)
    (s : Zmq.Socket) (timeout : option Py.num) :
  socket self = Some s ->
  (fst (ZMQSocketChannel.msg_ready self) = Ok false ->
     fst (ZMQSocketChannel.get_msg recv false timeout self) = Raise Empty)
  /\ (fst (ZMQSocketChannel.msg_ready self) = Ok true ->
        exists f rest,
          Zmq.inbox s = f :: rest
          /\ ZMQSocketChannel.get_msg recv false timeout self
             = recv (set_socket (Some (Zmq.record (Zmq.Poll zero) s)) self)
          /\ forall m, carries f m ->
               fst (ZMQSocketChannel.get_msg base_recv false timeout self) = Ok m).
Proof.
  intros Hs. rewrite (msg_ready_result self s Hs). cbn [fst].
  destruct (Zmq.inbox s) as [|f rest] eqn:Hq; split; intros H; try discriminate H.
  - rewrite (get_msg_not_ready recv self s timeout Hs Hq). reflexivity.
  - exists f, rest. split; [reflexivity |].
    split; [apply (get_msg_ready recv self s f rest timeout Hs Hq) |].
    intros m Hm. rewrite (get_msg_ready _ self s f rest timeout Hs Hq).
    rewrite (base_recv_ready feed_identities deserialize _
               (Zmq.record (Zmq.Poll zero) s) f rest m);
      [reflexivity | reflexivity | exact Hq | exact Hm].
Qed.

(** ** What receiving changes *)

Lemma later_socket_refl (s : Zmq.Socket) : later_socket s s.
Proof. repeat split. exists []. reflexivity. Qed.

Lemma later_socket_trans (s1 s2 s3 : Zmq.Socket) :
  later_socket s1 s2 -> later_socket s2 s3 -> later_socket s1 s3.
Proof.
  intros (Hm & Hc & Hi & He & Hx & c1 & Hq1) (Hm' & Hc' & Hi' & He' & Hx' & c2 & Hq2).
  repeat split; try congruence.
  exists (c1 ++ c2). rewrite Hq1, Hq2, app_assoc. reflexivity.
Qed.

Lemma advances_refl (a : Channel) : advances a a.
Proof.
  repeat split. destruct (socket a); [apply later_socket_refl | exact I].
Qed.

Lemma advances_trans (a b c : Channel) : advances a b -> advances b c -> advances a c.
Proof.
  intros (Hd & Hc & Ha & Hs) (Hd' & Hc' & Ha' & Hs').
  repeat split; try congruence.
  destruct (socket a), (socket b), (socket c); try contradiction; try exact I.
  eapply later_socket_trans; eassumption.
Qed.

Lemma advances_socket (a : Channel) (s s' : Zmq.Socket) :
  socket a = Some s -> later_socket s s' -> advances a (set_socket (Some s') a).
Proof. intros Hs Hl. repeat split. rewrite Hs. exact Hl. Qed.

Lemma advances_ready (a b : Channel) :
  advances a b -> exists consumed, ready_messages a = consumed ++ ready_messages b.
Proof.
  intros (_ & _ & _ & Hs). unfold ready_messages.
  destruct (socket a), (socket b); try contradiction.
  - destruct Hs as (_ & _ & _ & _ & _ & H). exact H.
  - exists []. reflexivity.
Qed.

Lemma later_poll (timeout : option Py.num) (s : Zmq.Socket) :
  later_socket s (snd (Zmq.poll timeout s)).
Proof.
  unfold Zmq.poll.
  destruct (Zmq.inbox s); [destruct (Zmq.waits_for_ever timeout) |];
    (repeat split; exists []; reflexivity).
Qed.

Lemma later_recv_multipart (s : Zmq.Socket) :
  later_socket s (snd (Zmq.recv_multipart s)).
Proof.
  unfold Zmq.recv_multipart. destruct (Zmq.inbox s) as [|f rest] eqn:Hq; cbn.
  - repeat split. exists []. cbn. rewrite Hq. reflexivity.
  - repeat split. exists [f]. cbn. exact Hq.
Qed.

(** A relation between the channel before and after a call that holds
    along every path through [get_msg] and [get_msgs]. *)
Section Preserved.

Variable R : Channel -> Channel -> Prop.
Variable recv : M Msg.
Hypothesis R_refl : forall a, R a a.
Hypothesis R_trans : forall a b c, R a b -> R b c -> R a c.
Hypothesis R_poll : forall a s timeout,
  socket a = Some s -> R a (set_socket (Some (snd (Zmq.poll timeout s))) a).
Hypothesis R_recv : forall a r b, recv a = (r, b) -> R a b.

Lemma get_msg_preserves (block : bool) (timeout : option Py.num)
    (a : Channel) r b :
  ZMQSocketChannel.get_msg recv block timeout a = (r, b) -> R a b.
Proof.
  unfold ZMQSocketChannel.get_msg, mbind, M_bind, on_socket, raise.
  set (t := if block then _ else _).
  assert (Hstep : forall t0,
    match (match socket a with
           | Some s => let '(r0, s') := Zmq.poll t0 s in (r0, set_socket (Some s') a)
           | None => (Raise (AttributeError "poll"), a)
           end) with
    | (Ok ready, self') =>
        (if Py.truthy ready then recv else fun self => (Raise Empty, self)) self'
    | (Raise e, self') => (Raise e, self')
    | (Hang, self') => (Hang, self')
    end = (r, b) -> R a b).
  { intros t0. destruct (socket a) as [s|] eqn:Hs.
    - pose proof (R_poll a s t0 Hs) as Hp.
      destruct (Zmq.poll t0 s) as [[ready|e|] s']; cbn [snd] in Hp.
      + destruct (Py.truthy ready).
        * intros H. exact (R_trans _ _ _ Hp (R_recv _ _ _ H)).
        * intros H. injection H as _ <-. exact Hp.
      + intros H. injection H as _ <-. exact Hp.
      + intros H. injection H as _ <-. exact Hp.
    - intros H. injection H as _ <-. apply R_refl. }
  destruct block; apply Hstep.
Qed.

Lemma get_msgs_loop_preserves (fuel : nat) :
  forall (acc : list Msg) (a : Channel) r b,
    ZMQSocketChannel.get_msgs_loop recv fuel acc a = Some (r, b) -> R a b.
Proof.
  induction fuel as [|fuel IH]; intros acc a r b H; [discriminate H |].
  cbn [ZMQSocketChannel.get_msgs_loop] in H.
  destruct (ZMQSocketChannel.get_msg recv false None a) as [[m|e|] a'] eqn:Hget;
    pose proof (get_msg_preserves _ _ _ _ _ Hget) as Hstep.
  - exact (R_trans _ _ _ Hstep (IH _ _ _ _ H)).
  - destruct e; injection H as _ <-; exact Hstep.
  - injection H as _ <-. exact Hstep.
Qed.

End Preserved.

Lemma reads_queue_refl (a : Channel) : reads_queue a a.
Proof. split; [apply advances_refl | reflexivity]. Qed.

Lemma reads_queue_trans (a b c : Channel) :
  reads_queue a b -> reads_queue b c -> reads_queue a c.
Proof.
  intros [H1 S1] [H2 S2]. split; [eapply advances_trans; eassumption | congruence].
Qed.

Lemma reads_queue_poll (a : Channel) s timeout :
  socket a = Some s ->
  reads_queue a (set_socket (Some (snd (Zmq.poll timeout s))) a).
Proof.
  intros Hs. split; [| reflexivity].
  apply (advances_socket a s _ Hs), later_poll.
Qed.

Lemma base_recv_reads_queue (a : Channel) r b :
  base_recv a = (r, b) -> reads_queue a b.
Proof.
  unfold ZMQSocketChannel._recv, ZMQSocketChannel.session_call,
    mbind, M_bind, on_socket.
  destruct (socket a) as [s|] eqn:Hs.
  - pose proof (later_recv_multipart s) as Hl.
    destruct (Zmq.recv_multipart s) as [[f|e|] s']; cbn [snd] in Hl.
    + assert (Hq : reads_queue a (set_socket (Some s') a))
        by (split; [apply (advances_socket a s s' Hs Hl) | reflexivity]).
      destruct (feed_identities f) as [[ident smsg]|e|];
        intros H; injection H as _ <-; exact Hq.
    + intros H; injection H as _ <-.
      split; [apply (advances_socket a s s' Hs Hl) | reflexivity].
    + intros H; injection H as _ <-.
      split; [apply (advances_socket a s s' Hs Hl) | reflexivity].
  - intros H; injection H as _ <-. apply reads_queue_refl.
Qed.

(** X10: Whatever a [get_msg] or a [get_msgs] on a channel with the base
    [_recv] ends in (a message, Empty, an error of the session), it has
    at most taken messages off the front of the socket's queue: the
    session, the context, the address and the socket's binding are what
    they were, a channel with a socket still has it, and the messages
    ready before are the ones consumed followed by the ones ready
    after. *)
Theorem receiving_only_reads_queue (block : bool) (timeout : option Py.num)
    (fuel : nat) (self : Channel) :
  (let '(_, self') := ZMQSocketChannel.get_msg base_recv block timeout self in
   advances self self' /\ session self' = session self
   /\ exists consumed, ready_messages self = consumed ++ ready_messages self')
  /\ match ZMQSocketChannel.get_msgs base_recv fuel self with
     | Some (_, self') =>
         advances self self' /\ session self' = session self
         /\ exists consumed, ready_messages self = consumed ++ ready_messages self'
     | None => True
     end.
Proof.
  split.
  - destruct (ZMQSocketChannel.get_msg base_recv block timeout self) as [r self'] eqn:H.
    destruct (get_msg_preserves reads_queue base_recv reads_queue_refl
                reads_queue_trans reads_queue_poll base_recv_reads_queue
                block timeout self r self' H) as [Ha Hs].
    split; [exact Ha |]. split; [exact Hs | apply advances_ready, Ha].
  - unfold ZMQSocketChannel.get_msgs.
    destruct (ZMQSocketChannel.get_msgs_loop base_recv fuel [] self)
      as [[r self']|] eqn:H; [| exact I].
    destruct (get_msgs_loop_preserves reads_queue base_recv reads_queue_refl
                reads_queue_trans reads_queue_poll base_recv_reads_queue
                fuel [] self r self' H) as [Ha Hs].
    split; [exact Ha |]. split; [exact Hs | apply advances_ready, Ha].
Qed.

(** ** What get_msgs returns, and what it loses *)

Lemma base_recv_inv (self : Channel) (m : Msg) (self' : Channel) :
  base_recv self = (Ok m, self') ->
  exists s f rest,
    socket self = Some s /\ Zmq.inbox s = f :: rest /\ carries f m
    /\ self' = set_socket (Some (Zmq.set_inbox rest (Zmq.record Zmq.RecvMultipart s))) self.
Proof.
  unfold ZMQSocketChannel._recv, ZMQSocketChannel.session_call,
    mbind, M_bind, on_socket, Zmq.recv_multipart.
  destruct (socket self) as [s|]; [| discriminate].
  destruct (Zmq.inbox s) as [|f rest] eqn:Hq; [discriminate |].
  destruct (feed_identities f) as [[ident smsg]|e|] eqn:Hf; try discriminate.
  destruct (deserialize smsg) as [m0|e|] eqn:Hd; try discriminate.
  intros H. injection H as <- <-.
  exists s, f, rest.
  split; [reflexivity |]. split; [exact Hq |].
  split; [exists ident, smsg; split; assumption | reflexivity].
Qed.

Lemma get_msg_ok_inv (self : Channel) (m : Msg) (self' : Channel) :
  ZMQSocketChannel.get_msg base_recv false None self = (Ok m, self') ->
  exists f rest,
    ready_messages self = f :: rest /\ carries f m /\ ready_messages self' = rest.
Proof.
  intros H. unfold ready_messages.
  destruct (socket self) as [s|] eqn:Hs.
  - destruct (Zmq.inbox s) as [|f rest] eqn:Hq.
    + rewrite (get_msg_not_ready _ self s None Hs Hq) in H. discriminate H.
    + rewrite (get_msg_ready _ self s f rest None Hs Hq) in H.
      destruct (base_recv_inv _ _ _ H) as (s0 & f0 & rest0 & Hs0 & Hq0 & Hm & ->).
      cbn in Hs0. injection Hs0 as <-. cbn in Hq0. rewrite Hq in Hq0.
      injection Hq0 as <- <-. exists f, rest. repeat split. exact Hm.
  - unfold ZMQSocketChannel.get_msg, mbind, M_bind, on_socket in H.
    rewrite Hs in H. discriminate H.
Qed.

Lemma get_msgs_loop_sound (fuel : nat) :
  forall (acc : list Msg) (self : Channel) out self',
    ZMQSocketChannel.get_msgs_loop base_recv fuel acc self = Some (Ok out, self') ->
    exists ms consumed,
      out = acc ++ ms
      /\ ready_messages self = consumed ++ ready_messages self'
      /\ Forall2 carries (take (length ms) consumed) ms
      /\ (length ms <= length consumed)%nat.
Proof.
  induction fuel as [|fuel IH]; intros acc self out self' H; [discriminate H |].
  cbn [ZMQSocketChannel.get_msgs_loop] in H.
  destruct (ZMQSocketChannel.get_msg base_recv false None self)
    as [[m|e|] self1] eqn:Hget.
  - destruct (get_msg_ok_inv _ _ _ Hget) as (f & rest & Hq & Hm & Hq1).
    destruct (IH _ _ _ _ H) as (ms & consumed & -> & Hc & Hall & Hlen).
    exists (m :: ms), (f :: consumed). repeat split.
    + rewrite <- app_assoc. reflexivity.
    + rewrite Hq, <- Hq1, Hc. reflexivity.
    + cbn. constructor; assumption.
    + cbn. lia.
  - destruct e; try discriminate H. injection H as <- <-.
    pose proof (get_msg_preserves reads_queue base_recv reads_queue_refl
                  reads_queue_trans reads_queue_poll base_recv_reads_queue
                  _ _ _ _ _ Hget) as [Ha _].
    destruct (advances_ready _ _ Ha) as (consumed & Hc).
    exists [], consumed. repeat split.
    + rewrite app_nil_r. reflexivity.
    + exact Hc.
    + cbn. rewrite take_0. constructor.
    + cbn. lia.
  - discriminate H.
Qed.

(** X11: Whenever [get_msgs] returns a list, the messages in it are what the
    session made of the first ready frames, one each and in arrival
    order, and the messages still ready afterwards are a tail of those
    ready before: nothing is returned that was not received, nothing is
    returned twice or out of order. *)
Theorem get_msgs_returns_prefix (fuel : nat) (self : Channel)
    (ms : list Msg) (self' : Channel) :
  ZMQSocketChannel.get_msgs base_recv fuel self = Some (Ok ms, self') ->
  Forall2 carries (take (length ms) (ready_messages self)) ms
  /\ exists consumed,
       ready_messages self = consumed ++ ready_messages self'
       /\ (length ms <= length consumed)%nat.
Proof.
  intros H. unfold ZMQSocketChannel.get_msgs in H.
  destruct (get_msgs_loop_sound _ _ _ _ _ H) as (ms0 & consumed & Hout & Hc & Hall & Hlen).
  cbn in Hout. subst ms0. split.
  - rewrite Hc, take_app_le by exact Hlen. exact Hall.
  - exists consumed. split; assumption.
Qed.

Lemma base_recv_garbled (self : Channel) s bad rest e :
  socket self = Some s -> Zmq.inbox s = bad :: rest -> garbled bad e ->
  base_recv self
  = (Raise e, set_socket (Some (Zmq.set_inbox rest (Zmq.record Zmq.RecvMultipart s))) self).
Proof.
  intros Hs Hq Hbad. run. rewrite Hs. unfold Zmq.recv_multipart. rewrite Hq. cbn.
  destruct Hbad as [Hf | (ident & smsg & Hf & Hd)]; rewrite Hf; cbn.
  - reflexivity.
  - rewrite Hd. reflexivity.
Qed.

Lemma get_msgs_loop_garbled (good : list (list string)) (ms : list Msg)
    (bad : list string) (rest : list (list string)) (e : exn) :
  Forall2 carries good ms -> garbled bad e -> e <> Empty ->
  forall (self : Channel) s acc fuel,
    socket self = Some s -> Zmq.inbox s = good ++ bad :: rest ->
    (length good < fuel)%nat ->
    exists s',
      ZMQSocketChannel.get_msgs_loop base_recv fuel acc self
      = Some (Raise e, set_socket (Some s') self)
      /\ Zmq.inbox s' = rest.
Proof.
  intros Hgood Hbad He.
  induction Hgood as [|f m good ms Hm Hgood IH]; intros self s acc fuel Hs Hq Hfuel;
    (destruct fuel as [|fuel]; [cbn in Hfuel; lia |]);
    cbn [ZMQSocketChannel.get_msgs_loop].
  - cbn in Hq. rewrite (get_msg_ready _ self s bad rest None Hs Hq).
    rewrite (base_recv_garbled
               (set_socket (Some (Zmq.record (Zmq.Poll zero) s)) self)
               (Zmq.record (Zmq.Poll zero) s) bad rest e eq_refl Hq Hbad).
    exists (Zmq.set_inbox rest
              (Zmq.record Zmq.RecvMultipart (Zmq.record (Zmq.Poll zero) s))).
    split; [| reflexivity].
    destruct e; try reflexivity. contradiction.
  - cbn in Hq. rewrite (get_msg_ready _ self s f _ None Hs Hq).
    rewrite (base_recv_ready feed_identities deserialize
               (set_socket (Some (Zmq.record (Zmq.Poll zero) s)) self)
               (Zmq.record (Zmq.Poll zero) s) f _ m eq_refl Hq Hm).
    destruct (IH (set_socket (Some (Zmq.set_inbox (good ++ bad :: rest)
                    (Zmq.record Zmq.RecvMultipart (Zmq.record (Zmq.Poll zero) s)))) self)
                 _ (acc ++ [m]) fuel eq_refl eq_refl ltac:(cbn in Hfuel; lia))
      as (s' & Hrun & Hq').
    exists s'. split; [exact Hrun | exact Hq'].
Qed.

(** X12: [get_msgs] is not all or nothing.  When the session fails on one of
    the ready messages with an exception other than Empty, [get_msgs]
    raises that exception; the messages in front of it have been taken
    off the socket together with it and are not handed to the caller,
    and the messages behind it are still ready. *)
Theorem get_msgs_loses_received_on_error (self : Channel) (s : Zmq.Socket)
    (good : list (list string)) (ms : list Msg) (bad : list string)
    (rest : list (list string)) (e : exn) (fuel : nat) :
  socket self = Some s ->
  Zmq.inbox s = good ++ bad :: rest ->
  Forall2 carries good ms ->
  garbled bad e ->
  e <> Empty ->
  (length good < fuel)%nat ->
  exists self',
    ZMQSocketChannel.get_msgs base_recv fuel self = Some (Raise e, self')
    /\ ready_messages self' = rest
    /\ session self' = session self.
Proof.
  intros Hs Hq Hgood Hbad He Hfuel.
  destruct (get_msgs_loop_garbled good ms bad rest e Hgood Hbad He
              self s [] fuel Hs Hq Hfuel) as (s' & Hrun & Hq').
  eexists. split; [exact Hrun |]. split; [exact Hq' | reflexivity].
Qed.

End MoreReceiving.

(** ** More on the shell channel *)

Lemma split_numeral (ds : string) (acc v : Z) :
  Py.digits acc ds = Some v -> Py.split "." ds = [ds].
Proof.
  revert acc. induction ds as [|c r IH]; intros acc H.
  - reflexivity.
  - destruct (digits_first acc c r v H) as (d & Hd & Hr).
    destruct (digit_char c d Hd) as (_ & Hdot & _).
    cbn [Py.split]. rewrite Hdot, (IH _ Hr). reflexivity.
Qed.

Section MoreAdaptation.

Variable major_protocol_version : Z.
Variable feed_identities : list string -> outcome (list string * list string).
Variable deserialize : list string -> outcome Msg.

#[local] Abbreviation base_recv := (ZMQSocketChannel._recv feed_identities deserialize).
#[local] Abbreviation shell_recv :=
  (BlockingShellChannel._recv major_protocol_version feed_identities deserialize).
#[local] Abbreviation shell_get_msg :=
  (BlockingShellChannel.get_msg major_protocol_version feed_identities deserialize).
#[local] Abbreviation handle :=
  (BlockingShellChannel._handle_kernel_info_reply major_protocol_version).
#[local] Abbreviation adapts := (adapts major_protocol_version).

(** X14: On everything but a kernel_info_reply the shell channel receives
    exactly as the base class does: the same message or the same error,
    and the same state afterwards, with the session untouched. *)
Theorem shell_recv_other_types (self : Channel) (r : outcome Msg) (self' : Channel) :
  base_recv self = (r, self') ->
  (forall m, r = Ok m -> msg_type m <> "kernel_info_reply") ->
  shell_recv self = (r, self').
Proof.
  intros Hbase Hty. unfold BlockingShellChannel._recv.
  unfold mbind at 1 2. unfold M_bind. rewrite Hbase.
  destruct r as [m|e|]; try reflexivity.
  destruct (String.eqb_spec (msg_type m) "kernel_info_reply") as [Heq | _].
  - destruct (Hty m eq_refl Heq).
  - reflexivity.
Qed.

Lemma shell_get_msg_handles (self : Channel) s f rest m timeout :
  socket self = Some s -> Zmq.inbox s = f :: rest ->
  carries feed_identities deserialize f m ->
  msg_type m = "kernel_info_reply" ->
  shell_get_msg false timeout self
  = let received := set_socket (Some (Zmq.set_inbox rest
                       (Zmq.record Zmq.RecvMultipart (Zmq.record (Zmq.Poll zero) s)))) self in
    match handle m received with
    | (Ok _, self') => (Ok m, self')
    | (Raise e, self') => (Raise e, self')
    | (Hang, self') => (Hang, self')
    end.
Proof.
  intros Hs Hq Hm Hty. unfold BlockingShellChannel.get_msg.
  rewrite (get_msg_ready _ self s f rest timeout Hs Hq).
  unfold BlockingShellChannel._recv. unfold mbind at 1 2. unfold M_bind.
  rewrite (base_recv_ready feed_identities deserialize
             (set_socket (Some (Zmq.record (Zmq.Poll zero) s)) self)
             (Zmq.record (Zmq.Poll zero) s) f rest m eq_refl Hq Hm).
  rewrite Hty, String.eqb_refl. cbn zeta.
  destruct (handle m _) as [[u|e|] self']; reflexivity.
Qed.


(** X16: A protocol_version without a dot is read whole: a reply whose
    protocol_version is just the decimal integer v is returned, and the
    session is adapted to v when v differs from the major protocol
    version and left alone when it equals it. *)
Theorem kernel_info_reply_without_dot (self : Channel) (s : Zmq.Socket)
    (f : list string) (rest : list (list string)) (m : Msg)
    (version : string) (v : Z) (timeout : option Py.num) :
  socket self = Some s ->
  Zmq.inbox s = f :: rest ->
  carries feed_identities deserialize f m ->
  msg_type m = "kernel_info_reply" ->
  content m !! "protocol_version" = Some (Py.VStr version) ->
  Py.numeral version = Some v ->
  exists self',
    shell_get_msg false timeout self = (Ok m, self')
    /\ ready_messages self' = rest
    /\ adapt_version (session self')
       = if v =? major_protocol_version then adapt_version (session self) else Some v.
Proof.
  intros Hs Hq Hm Hty Hc Hv.
  rewrite (shell_get_msg_handles self s f rest m timeout Hs Hq Hm Hty). cbn zeta.
  unfold BlockingShellChannel._handle_kernel_info_reply. rewrite Hc.
  assert (Hd : Py.digits 0 version = Some v)
    by (destruct version; [discriminate Hv | exact Hv]).
  rewrite (split_numeral version 0 v Hd), (int_numeral version v Hv).
  destruct (v =? major_protocol_version); cbn; eexists; repeat split.
Qed.

Lemma adapts_refl (a : Channel) : adapts a a.
Proof. split; [apply advances_refl |]. split; [reflexivity | left; reflexivity]. Qed.

Lemma adapts_trans (a b c : Channel) : adapts a b -> adapts b c -> adapts a c.
Proof.
  intros (H1 & B1 & A1) (H2 & B2 & A2).
  split; [eapply advances_trans; eassumption |]. split; [congruence |].
  destruct A2 as [A2 | A2]; [| right; exact A2].
  destruct A1 as [A1 | A1]; [left; congruence | right].
  destruct A1 as (v & Hv & A1). exists v. split; [exact Hv | congruence].
Qed.

Lemma adapts_poll (a : Channel) s timeout :
  socket a = Some s -> adapts a (set_socket (Some (snd (Zmq.poll timeout s))) a).
Proof.
  intros Hs. split; [| split; [reflexivity | left; reflexivity]].
  apply (advances_socket a s _ Hs), later_poll.
Qed.

Lemma handle_adapts (m : Msg) (a : Channel) r b :
  handle m a = (r, b) -> adapts a b.
Proof.
  unfold BlockingShellChannel._handle_kernel_info_reply.
  destruct (content m !! "protocol_version") as [[| |z|version]|];
    try (intros H; injection H as _ <-; apply adapts_refl).
  destruct (Py.split "." version) as [|first others];
    [intros H; injection H as _ <-; apply adapts_refl |].
  destruct (Py.int first) as [v|];
    [| intros H; injection H as _ <-; apply adapts_refl].
  destruct (Z.eqb_spec v major_protocol_version) as [Heq | Hne]; cbn [negb];
    intros H; injection H as _ <-.
  - apply adapts_refl.
  - split; [| split; [reflexivity | right; exists v; split; [exact Hne | reflexivity]]].
    repeat split. cbn. destruct (socket a); [apply later_socket_refl | exact I].
Qed.

Lemma shell_recv_adapts (a : Channel) r b : shell_recv a = (r, b) -> adapts a b.
Proof.
  unfold BlockingShellChannel._recv. unfold mbind at 1 2. unfold M_bind.
  destruct (base_recv a) as [r0 a1] eqn:Hbase.
  destruct (base_recv_reads_queue feed_identities deserialize a r0 a1 Hbase) as [Ha Hs].
  assert (H01 : adapts a a1).
  { split; [exact Ha |]. split; [congruence | left; congruence]. }
  destruct r0 as [m|e|]; try (intros H; injection H as _ <-; exact H01).
  destruct (String.eqb (msg_type m) "kernel_info_reply").
  - destruct (handle m a1) as [[u|e|] a2] eqn:Hh;
      intros H; injection H as _ <-;
      exact (adapts_trans _ _ _ H01 (handle_adapts m a1 _ a2 Hh)).
  - intros H; injection H as _ <-. exact H01.
Qed.

(** X17: Receiving on the shell channel never clears an adaptation and never
    adapts the session to the major protocol version itself: after any
    [get_msg] or [get_msgs], however it ends, the session's adapt_version
    is what it was or a version different from the major one, the session
    identity is unchanged and the channel has at most read on in its
    socket's queue. *)
Theorem shell_receiving_keeps_adaptation (block : bool) (timeout : option Py.num)
    (fuel : nat) (self : Channel) :
  let kept (self' : Channel) :=
    advances self self'
    /\ bsession (session self') = bsession (session self)
    /\ (adapt_version (session self') = adapt_version (session self)
        \/ exists v, v <> major_protocol_version
                     /\ adapt_version (session self') = Some v)
    /\ (is_Some (adapt_version (session self)) ->
          is_Some (adapt_version (session self')))
    /\ (adapt_version (session self) <> Some major_protocol_version ->
          adapt_version (session self') <> Some major_protocol_version) in
  (let '(_, self') := shell_get_msg block timeout self in kept self')
  /\ match BlockingShellChannel.get_msgs major_protocol_version feed_identities
             deserialize fuel self with
     | Some (_, self') => kept self'
     | None => True
     end.
Proof.
  assert (Hkept : forall self', adapts self self' ->
            advances self self'
            /\ bsession (session self') = bsession (session self)
            /\ (adapt_version (session self') = adapt_version (session self)
                \/ exists v, v <> major_protocol_version
                             /\ adapt_version (session self') = Some v)
            /\ (is_Some (adapt_version (session self)) ->
                  is_Some (adapt_version (session self')))
            /\ (adapt_version (session self) <> Some major_protocol_version ->
                  adapt_version (session self') <> Some major_protocol_version)).
  { intros self' (Ha & Hb & Hv).
    split; [exact Ha |]. split; [exact Hb |]. split; [exact Hv |]. split.
    - intros Hsome. destruct Hv as [-> | (v & _ & ->)]; [exact Hsome | eexists; reflexivity].
    - intros Hne. destruct Hv as [-> | (v & Hv & ->)]; [exact Hne | congruence]. }
  cbn zeta. split.
  - destruct (shell_get_msg block timeout self) as [r self'] eqn:H.
    apply Hkept.
    exact (get_msg_preserves adapts shell_recv adapts_refl adapts_trans
             adapts_poll shell_recv_adapts block timeout self r self' H).
  - unfold BlockingShellChannel.get_msgs, ZMQSocketChannel.get_msgs.
    destruct (ZMQSocketChannel.get_msgs_loop shell_recv fuel [] self)
      as [[r self']|] eqn:H; [| exact I].
    apply Hkept.
    exact (get_msgs_loop_preserves adapts shell_recv adapts_refl adapts_trans
             adapts_poll shell_recv_adapts fuel [] self r self' H).
Qed.

End MoreAdaptation.

(** ** The further properties on concrete channels *)

Lemma get_msg_blocking_ready_witness :
  socket Run.busy = Some (Demo.socket_with Zmq.IOPub Run.queue)
  /\ exists s',
       ZMQSocketChannel.get_msg Run.recv true None Run.busy
       = (Ok Run.m1, set_socket (Some s') Run.busy)
       /\ Zmq.calls s' = [Zmq.Poll None; Zmq.RecvMultipart].
Proof.
  split; [reflexivity |].
  destruct (get_msg_blocking_ready Demo.feed_identities Demo.deserialize
              Run.busy _ (Demo.status "m1" "status") _ Run.m1 None
              eq_refl eq_refl (carries_status "m1" "status"))
    as (s' & Hrun & _ & Hcalls).
  exists s'. split; [exact Hrun | exact Hcalls].
Defined.

Lemma msg_ready_predicts_get_msg_witness :
  socket Run.busy = Some (Demo.socket_with Zmq.IOPub Run.queue)
  /\ fst (ZMQSocketChannel.msg_ready Run.busy) = Ok true
  /\ fst (ZMQSocketChannel.get_msg Run.recv false None Run.busy) = Ok Run.m1
  /\ fst (ZMQSocketChannel.msg_ready Run.idle) = Ok false
  /\ fst (ZMQSocketChannel.get_msg Run.recv false None Run.idle) = Raise Empty.
Proof.
  split; [reflexivity |]. split; [reflexivity |]. split; [| split; [reflexivity |]].
  - destruct (proj2 (msg_ready_predicts_get_msg Demo.feed_identities Demo.deserialize
                       Run.recv Run.busy _ None eq_refl) eq_refl)
      as (f & rest & Hq & _ & Hm).
    apply Hm. injection Hq as <- _. apply carries_status.
  - apply (proj1 (msg_ready_predicts_get_msg Demo.feed_identities Demo.deserialize
                    Run.recv Run.idle _ None eq_refl)).
    reflexivity.
Defined.

Lemma get_msgs_returns_prefix_witness :
  let after := set_socket (Some (drained Run.queue (Demo.socket_with Zmq.IOPub Run.queue)))
                 Run.busy in
  ZMQSocketChannel.get_msgs Run.recv 4 Run.busy
  = Some (Ok [Run.m1; Run.m2; Run.m3], after)
  /\ Forall2 (carries Demo.feed_identities Demo.deserialize)
       [Demo.status "m1" "status"; Demo.status "m2" "stream"; Demo.status "m3" "status"]
       [Run.m1; Run.m2; Run.m3].
Proof.
  cbn zeta.
  assert (Hrun : ZMQSocketChannel.get_msgs Run.recv 4 Run.busy
                 = Some (Ok [Run.m1; Run.m2; Run.m3],
                         set_socket (Some (drained Run.queue
                                             (Demo.socket_with Zmq.IOPub Run.queue)))
                           Run.busy))
    by (vm_compute; reflexivity).
  split; [exact Hrun |].
  exact (proj1 (get_msgs_returns_prefix Demo.feed_identities Demo.deserialize 4
                  Run.busy [Run.m1; Run.m2; Run.m3] _ Hrun)).
Defined.

Lemma get_msgs_loses_received_on_error_witness :
  let q := [Demo.status "m1" "status"; ["junk"]; Demo.status "m3" "status"] in
  socket (Demo.channel_with Zmq.IOPub q) = Some (Demo.socket_with Zmq.IOPub q)
  /\ garbled Demo.feed_identities Demo.deserialize ["junk"] ValueError
  /\ exists self',
       ZMQSocketChannel.get_msgs Run.recv 4 (Demo.channel_with Zmq.IOPub q)
       = Some (Raise ValueError, self')
       /\ ready_messages self' = [Demo.status "m3" "status"].
Proof.
  cbn zeta. split; [reflexivity |]. split; [left; reflexivity |].
  destruct (get_msgs_loses_received_on_error Demo.feed_identities Demo.deserialize
              (Demo.channel_with Zmq.IOPub
                 [Demo.status "m1" "status"; ["junk"]; Demo.status "m3" "status"])
              _ [Demo.status "m1" "status"] [Run.m1] ["junk"]
              [Demo.status "m3" "status"] ValueError 4 eq_refl eq_refl)
    as (self' & Hrun & Hq & _).
  - repeat constructor. apply carries_status.
  - left. reflexivity.
  - discriminate.
  - cbn. lia.
  - exists self'. split; [exact Hrun | exact Hq].
Defined.

Lemma shell_recv_other_types_witness :
  let self := Demo.channel_with Zmq.Shell Run.queue in
  Run.recv self = (Ok Run.m1, snd (Run.recv self))
  /\ BlockingShellChannel._recv 5 Demo.feed_identities Demo.deserialize self
     = (Ok Run.m1, snd (Run.recv self)).
Proof.
  cbn zeta. split; [reflexivity |].
  apply (shell_recv_other_types 5 Demo.feed_identities Demo.deserialize
           (Demo.channel_with Zmq.Shell Run.queue) (Ok Run.m1) _ eq_refl).
  intros m H. injection H as <-. discriminate.
Defined.


Lemma kernel_info_reply_without_dot_witness :
  socket (Run.shell "4") = Some (Demo.socket_with Zmq.Shell [Demo.kernel_info "r1" "4"])
  /\ exists self',
       BlockingShellChannel.get_msg 5 Demo.feed_identities Demo.deserialize
         false None (Run.shell "4")
       = (Ok (Run.reply "4"), self')
       /\ adapt_version (session self') = Some 4.
Proof.
  split; [reflexivity |].
  assert (Hc : carries Demo.feed_identities Demo.deserialize
                 (Demo.kernel_info "r1" "4") (Run.reply "4"))
    by (do 2 eexists; split; reflexivity).
  destruct (kernel_info_reply_without_dot 5 Demo.feed_identities Demo.deserialize
              (Run.shell "4") _ (Demo.kernel_info "r1" "4") [] (Run.reply "4")
              "4" 4 None eq_refl eq_refl Hc eq_refl eq_refl eq_refl)
    as (self' & Hrun & _ & Hadapt).
  exists self'. split; [exact Hrun | exact Hadapt].
Defined.

Lemma get_msgs_loop_terminates_witness :
  (length (ready_messages Run.busy) < 4)%nat
  /\ exists r,
       ZMQSocketChannel.get_msgs_loop Run.recv 4 [] Run.busy = Some r.
Proof.
  split; [cbn; lia |].
  apply (get_msgs_loop_terminates Demo.feed_identities Demo.deserialize 4 Run.busy []).
  cbn. lia.
Defined.
